(** * Bitstream cache mixin of torii-hdl: a shallow embedding

    Source: [src/torii/mixins/bitstream_cache.py], class
    [BitstreamCacheMixin].  Methods are embedded as functions in a small
    state-and-exception monad over a model of the file system; method and
    attribute names are those of the Python source. *)

From Stdlib Require Import ZArith String Ascii List Lia.
From stdpp Require Import base option gmap sets list strings pretty.

(** ** Strings *)

(** [s[lo:hi]] for non-negative bounds: the characters at positions
    [lo], ..., [min hi (len s) - 1]; empty when [hi <= lo]. *)
Definition str_slice (s : string) (lo hi : nat) : string :=
  substring lo (hi - lo) s.

(** [''.join(l)] *)
Definition str_concat (l : list string) : string :=
  fold_right String.append EmptyString l.

Definition is_hex_char (c : ascii) : bool :=
  let n := nat_of_ascii c in
  ((48 <=? n)%nat && (n <=? 57)%nat)
  || ((97 <=? n)%nat && (n <=? 102)%nat)
  || ((65 <=? n)%nat && (n <=? 70)%nat).

Fixpoint is_hex_string (s : string) : bool :=
  match s with
  | EmptyString => true
  | String c s' => is_hex_char c && is_hex_string s'
  end.

(** The string without its last character, [s[:-1]]. *)
Definition str_drop_last (s : string) : string :=
  substring 0 (String.length s - 1) s.

(** ** [_decompose_digest]

<<
	def _decompose_digest(self, digest: str) -> List[str]:
		return [
			digest[
				(i*2):((i*2)+2)
			]
			for i in range(len(digest) // 2)
		]
>>
    The method does not use [self]. *)
Definition _decompose_digest (digest : string) : list string :=
  map (fun i => str_slice digest (i * 2) ((i * 2) + 2))
      (seq 0 (String.length digest / 2)).

(** [bytes.hex()] and the format specification [02x]: lowercase
    hexadecimal, zero-padded to width two. *)
Definition hex_digit (n : nat) : ascii :=
  if (n <? 10)%nat then ascii_of_nat (48 + n) else ascii_of_nat (87 + n).

Fixpoint hex_of_nat_aux (fuel n : nat) (acc : string) : string :=
  match fuel with
  | O => acc
  | S fuel' =>
      let acc' := String (hex_digit (n mod 16)) acc in
      if (n / 16 =? 0)%nat then acc' else hex_of_nat_aux fuel' (n / 16) acc'
  end.

(** [f'{n:x}']; [S n] steps are more than the number of digits of [n]. *)
Definition hex_of_nat (n : nat) : string := hex_of_nat_aux (S n) n EmptyString.

(** [f'{i:02x}'] *)
Definition fmt_02x (i : nat) : string :=
  let s := hex_of_nat i in
  if (String.length s <? 2)%nat then "0" +:+ s else s.

(** [b.hex()] for [b : bytes] *)
Definition bytes_hex (b : list Byte.byte) : string :=
  str_concat (map (fun x => fmt_02x (N.to_nat (Byte.to_N x))) b).

(** ** Paths

    A [pathlib.Path] is modelled as the list of the components of an
    absolute POSIX path, outermost first; [[]] is the root directory [/].
    Relative paths, symbolic links and the implementation-defined [//]
    root are outside the model.

    [pathlib] keeps a [..] component as it parses it, and so does
    [path_parts]; the operating system resolves it when the path is
    used.  The file system below looks a path up by its components as
    they stand, so it agrees with the operating system on the paths that
    satisfy [no_dotdot], and the properties that depend on it assume it
    of the paths they are given. *)
Abbreviation Path := (list string).

(** No component of [p] is [..]. *)
Definition no_dotdot (p : Path) : bool :=
  forallb (fun c => negb (String.eqb c "..")) p.

Fixpoint split_on (sep : ascii) (s : string) : list string :=
  match s with
  | EmptyString => [EmptyString]
  | String c s' =>
      if Ascii.eqb c sep then EmptyString :: split_on sep s'
      else match split_on sep s' with
           | [] => [String c EmptyString]
           | h :: t => String c h :: t
           end
  end.

(** The components a string segment contributes to a path: split at
    [/], empty components and [.] dropped (as [pathlib] parses them). *)
Definition path_parts (seg : string) : list string :=
  List.filter (fun c => negb (String.eqb c EmptyString) && negb (String.eqb c "."))
              (split_on "/"%char seg).

Definition is_absolute (seg : string) : bool :=
  match seg with
  | String c _ => Ascii.eqb c "/"%char
  | EmptyString => false
  end.

(** [p / seg]: an absolute segment replaces the path. *)
Definition path_div (p : Path) (seg : string) : Path :=
  if is_absolute seg then path_parts seg else p ++ path_parts seg.

(** [p.joinpath] applied to the unpacked list [segs] *)
Definition joinpath (p : Path) (segs : list string) : Path :=
  fold_left path_div segs p.

(** [p.parent]; the parent of the root is the root. *)
Definition parent (p : Path) : Path := removelast p.

(** [str(p)] *)
Definition str_of_path (p : Path) : string :=
  match p with
  | [] => "/"
  | _ => str_concat (map (fun c => "/" +:+ c) p)
  end.

(** ** Exceptions, file system and the monad *)

Inductive PyErr : Type :=
| AttributeError (attr : string)
| TypeError
| FileExistsError (p : Path)
| FileNotFoundError (p : Path)
| NotADirectoryError (p : Path)
| IsADirectoryError (p : Path)
| MissingArtifact (filename : string)
| ExternalError (msg : string).

Inductive result (A : Type) : Type :=
| Ok (a : A)
| Raise (e : PyErr).
Arguments Ok {A} a.
Arguments Raise {A} e.

(** The file system: the set of directories and the contents of the
    regular files.  Permissions, quotas and other causes of I/O failure
    are not modelled. *)
Record FS : Type := mkFS {
  fs_dirs : gset Path;
  fs_files : gmap Path (list Byte.byte)
}.

(** What the cache layer did, most recent first: mutations of the file
    system and calls to the external collaborators. *)
Inductive Event : Type :=
| EvMkdir (p : Path)
| EvOpenW (p : Path)
| EvWrite (p : Path) (data : list Byte.byte)
| EvElaborate (name build_dir : string)
| EvExecute (build_dir : string).

(** The state a call runs in: the file system, the trace, and the
    working directory of the process (never changed by the mixin). *)
Record World : Type := mkWorld {
  w_fs : FS;
  w_trace : list Event;
  w_cwd : Path
}.

Definition M (A : Type) : Type := World -> result A * World.

Definition ret {A} (a : A) : M A := fun w => (Ok a, w).

Definition raise {A} (e : PyErr) : M A := fun w => (Raise e, w).

Definition bind {A B} (c : M A) (k : A -> M B) : M B :=
  fun w =>
    match c w with
    | (Ok a, w') => k a w'
    | (Raise e, w') => (Raise e, w')
    end.

Notation "x <- c1 ;; c2" := (bind c1 (fun x => c2))
  (at level 100, c1 at next level, right associativity).
Notation "c1 ;; c2" := (bind c1 (fun _ => c2))
  (at level 100, right associativity).

(** [for x in l: body(x)] *)
Fixpoint for_each {A} (l : list A) (body : A -> M unit) : M unit :=
  match l with
  | [] => ret tt
  | x :: l' => body x ;; for_each l' body
  end.

Definition fs_is_dir (f : FS) (p : Path) : bool := bool_decide (p ∈ fs_dirs f).

Definition fs_is_file (f : FS) (p : Path) : bool :=
  match fs_files f !! p with Some _ => true | None => false end.

Definition fs_exists (f : FS) (p : Path) : bool := fs_is_dir f p || fs_is_file f p.

(** A consistent file system: the root is a directory, every entry lies
    in a directory, and no path is both a file and a directory. *)
Definition fs_wf (f : FS) : Prop :=
  [] ∈ fs_dirs f
  ∧ (∀ p, p ∈ fs_dirs f → parent p ∈ fs_dirs f)
  ∧ (∀ p, fs_is_file f p = true → parent p ∈ fs_dirs f ∧ p ∉ fs_dirs f).

(** [w'] differs from [w] at most by further directories (and trace). *)
Definition fs_grows (w w' : World) : Prop :=
  fs_dirs (w_fs w) ⊆ fs_dirs (w_fs w')
  ∧ fs_files (w_fs w') = fs_files (w_fs w)
  ∧ w_cwd w' = w_cwd w.

(** The proper ancestors of [p], the root first. *)
Definition ancestors (p : Path) : list Path :=
  map (fun n => firstn n p) (seq 0 (length p)).

(** The error of an operation that needs the directory [parent p].  The
    operating system walks the ancestors of [p] from the root and stops
    at the first one that is not a directory: [ENOTDIR] when it is a
    regular file, [ENOENT] when it does not exist. *)
Definition no_parent_error (f : FS) (p : Path) : PyErr :=
  match find (fun q => negb (fs_is_dir f q)) (ancestors p) with
  | Some q => if fs_is_file f q then NotADirectoryError p else FileNotFoundError p
  | None => FileNotFoundError p
  end.

(** [Path.cwd()] *)
Definition path_cwd : M Path := fun w => (Ok (w_cwd w), w).

(** [p.exists()] *)
Definition path_exists (p : Path) : M bool :=
  fun w => (Ok (fs_exists (w_fs w) p), w).

(** [p.mkdir()] with the defaults [parents = False], [exist_ok = False]. *)
Definition mkdir (p : Path) : M unit :=
  fun w =>
    let f := w_fs w in
    if fs_exists f p then (Raise (FileExistsError p), w)
    else if fs_is_dir f (parent p) then
      (Ok tt, mkWorld (mkFS ({[p]} ∪ fs_dirs f) (fs_files f))
                      (EvMkdir p :: w_trace w) (w_cwd w))
    else (Raise (no_parent_error f p), w).

(** [p.open('wb')]: creates the file or truncates it.  The handle is
    the path itself; every handle is closed by its [with] block. *)
Definition open_wb (p : Path) : M unit :=
  fun w =>
    let f := w_fs w in
    if fs_is_dir f p then (Raise (IsADirectoryError p), w)
    else if fs_is_dir f (parent p) then
      (Ok tt, mkWorld (mkFS (fs_dirs f) (<[p := []]> (fs_files f)))
                      (EvOpenW p :: w_trace w) (w_cwd w))
    else (Raise (no_parent_error f p), w).

(** [fh.write(data)] on the handle opened at [p]: appends. *)
Definition file_write (p : Path) (data : list Byte.byte) : M unit :=
  fun w =>
    let f := w_fs w in
    (Ok tt, mkWorld (mkFS (fs_dirs f)
                          (<[p := default [] (fs_files f !! p) ++ data]> (fs_files f)))
                    (EvWrite p data :: w_trace w) (w_cwd w)).

(** ** Python values held in attributes and keyword arguments *)

Inductive PyVal : Type :=
| VNone
| VBool (b : bool)
| VInt (z : Z)
| VStr (s : string)
| VPath (p : Path).

(** [bool(v)] *)
Definition truthy (v : PyVal) : bool :=
  match v with
  | VNone => false
  | VBool b => b
  | VInt z => negb (z =? 0)%Z
  | VStr s => negb (String.eqb s EmptyString)
  | VPath _ => true
  end.

(** [str(v)] *)
Definition py_str (v : PyVal) : string :=
  match v with
  | VNone => "None"
  | VBool true => "True"
  | VBool false => "False"
  | VInt z => pretty z
  | VStr s => s
  | VPath p => str_of_path p
  end.

(** [v / seg] for a [str] [seg]: only a path supports it. *)
Definition truediv (v : PyVal) (seg : string) : M Path :=
  match v with
  | VPath p => ret (path_div p seg)
  | _ => raise TypeError
  end.

(** [l[:n]] for an integer [n]; a negative [n] counts from the end. *)
Definition list_upto {A} (l : list A) (n : Z) : list A :=
  if (0 <=? n)%Z then firstn (Z.to_nat n) l
  else firstn (length l - Z.to_nat (- n)) l.

(** [l[:v]]: [None] keeps the whole list, a [bool] is an integer. *)
Definition py_slice_upto {A} (l : list A) (v : PyVal) : M (list A) :=
  match v with
  | VNone => ret l
  | VBool b => ret (list_upto l (if b then 1 else 0)%Z)
  | VInt n => ret (list_upto l n)
  | _ => raise TypeError
  end.

(** ** Collaborators *)

(** Modelled from the spec: [LocalBuildProducts] of [torii.build.run],
    which is not among the source files.  Section 4.3 of the
    specification has a cache hit return "a handle referencing that
    directory as an artifact-set accessor", and section 6 gives
    [get(artifact_name) -> bytes], "failing with MissingArtifact if
    absent".  The source builds the handle from a directory name,
    [LocalBuildProducts(str(self.cache_dir))]; a relative name is
    resolved against the working directory. *)
Record LocalBuildProducts : Type := mkProducts { lbp_root : string }.

(** Modelled from the spec: [LocalBuildProducts.get], which is not among
    the source files either; section 6 of the specification:
    [get(artifact_name) -> bytes], "failing with MissingArtifact if
    absent".  The artifact is the file of that name in the directory. *)
Definition products_get (prod : LocalBuildProducts) (filename : string)
  : M (list Byte.byte) :=
  fun w =>
    match fs_files (w_fs w)
          !! path_div (path_div (w_cwd w) (lbp_root prod)) filename with
    | Some data => (Ok data, w)
    | None => (Raise (MissingArtifact filename), w)
    end.

(** A build plan as the mixin uses it: [plan.digest(size = n)] and
    [plan.execute_local(build_dir)], the external executor, which may
    change the file system and may fail. *)
Record BuildPlan : Type := mkPlan {
  plan_digest : nat -> list Byte.byte;
  plan_execute_local : string -> FS -> result LocalBuildProducts * FS
}.

(** [plan.execute_local(build_dir)]; the call is recorded before it runs. *)
Definition execute_local (plan : BuildPlan) (build_dir : string)
  : M LocalBuildProducts :=
  fun w =>
    let '(r, f) := plan_execute_local plan build_dir (w_fs w) in
    (r, mkWorld f (EvExecute build_dir :: w_trace w) (w_cwd w)).

(** What [_build_elaboratable] returns next to the name. *)
Inductive BuildOutput : Type :=
| OutPlan (plan : BuildPlan)
| OutProducts (prod : LocalBuildProducts).

(** The dictionary returned on a cache hit, keys ['name'] and ['products']. *)
Record CacheEntry : Type := mkEntry {
  ce_name : string;
  ce_products : LocalBuildProducts
}.

Section Mixin.

(** The design handed to [build] is opaque to the mixin. *)
Context {Elaboratable : Type}.

(** [LZMACompressor] of the Python standard library: what
    [compress(data)] returns and what the [flush()] after it returns. *)
Variable lzma_compress : list Byte.byte -> list Byte.byte.
Variable lzma_flush : list Byte.byte -> list Byte.byte.

(** The classes after the mixin in the method resolution order (the
    platform): the attributes they give the instance and their
    [build] method, reached through [super()]. *)
Record Host : Type := mkHost {
  host_attrs : gmap string PyVal;
  host_build :
    Elaboratable -> string -> string -> bool ->
    option (gmap string string) -> bool -> gmap string PyVal ->
    FS -> result BuildPlan * FS
}.

(** An instance.  [_cache_depth] is a natural number: [__init__] sets
    it to [1], the class has no setter for it, and the configuration
    of the specification has [shard_depth >= 0]. *)
Record Self : Type := mkSelf {
  _cache_root : Path;
  _cache_depth : nat;
  _cache_rtl : bool;
  host : Host
}.

(** [__init__], after [super().__init__] has produced [h]:
<<
		self._cache_root  = Path.cwd() / '.torii_cache'
		self._cache_depth = 1
		self._cache_rtl   = True
>> *)
Definition __init__ (h : Host) : M Self :=
  cwd <- path_cwd ;;
  ret {| _cache_root := path_div cwd ".torii_cache";
         _cache_depth := 1;
         _cache_rtl := true;
         host := h |}.

(** [self.attr] for a name the mixin does not define. *)
Definition getattr (self : Self) (attr : string) : M PyVal :=
  match host_attrs (host self) !! attr with
  | Some v => ret v
  | None => raise (AttributeError attr)
  end.

(** [super().build(...)] *)
Definition super_build (self : Self) (elaboratable : Elaboratable)
    (name build_dir : string) (do_build : bool)
    (program_opts : option (gmap string string)) (do_program : bool)
    (kwargs : gmap string PyVal) : M BuildPlan :=
  fun w =>
    let '(r, f) :=
      host_build (host self) elaboratable name build_dir do_build
                 program_opts do_program kwargs (w_fs w) in
    (r, mkWorld f (EvElaborate name build_dir :: w_trace w) (w_cwd w)).

(** Property [cache_rtl] *)
Definition cache_rtl (self : Self) : M bool := ret (_cache_rtl self).


(** Property [cache_depth] *)
Definition cache_depth (self : Self) : M nat := ret (_cache_depth self).

(** Setter of [cache_root] *)
Definition set_cache_root (self : Self) (dir : Path) : Self :=
  {| _cache_root := dir;
     _cache_depth := _cache_depth self;
     _cache_rtl := _cache_rtl self;
     host := host self |}.

(** The inner function of [_init_cache_dir]:
<<
		def _init_dir(root: Path, depth: int = self.cache_depth) -> None:
			if depth == 0:
				return

			for i in range(256):
				cache_stub = root / f'{i:02x}'
				if not cache_stub.exists():
					cache_stub.mkdir()
					_init_dir(cache_stub, depth - 1)
>> *)
Fixpoint _init_dir (depth : nat) (root : Path) : M unit :=
  match depth with
  | O => ret tt
  | S depth' =>
      for_each (seq 0 256) (fun i =>
        let cache_stub := path_div root (fmt_02x i) in
        ex <- path_exists cache_stub ;;
        if negb ex then
          mkdir cache_stub ;;
          _init_dir depth' cache_stub
        else ret tt)
  end.

(**
<<
	def _init_cache_dir(self) -> None:
		if self._cache_root.exists():
			return

		self._cache_root.mkdir()
		...
		_init_dir(self._cache_root)
>> *)
Definition _init_cache_dir (self : Self) : M unit :=
  ex <- path_exists (_cache_root self) ;;
  if ex then ret tt
  else
    mkdir (_cache_root self) ;;
    depth <- cache_depth self ;;
    _init_dir depth (_cache_root self).

(** Property [cache_root]: initialises the tree, then returns the path. *)
Definition cache_root (self : Self) : M Path :=
  _init_cache_dir self ;;
  ret (_cache_root self).

(**
<<
	def _get_cache_dir(self, digest: str) -> Path:
		return self.cache_root.joinpath(
			*self._decompose_digest(digest)[
				:self.tree_depth
			]
		)
>>
    Python evaluates [self.cache_root] (the callee) before the
    arguments, so the tree is initialised before [self.tree_depth] is
    read. *)
Definition _get_cache_dir (self : Self) (digest : string) : M Path :=
  root <- cache_root self ;;
  let octets := _decompose_digest digest in
  tree_depth <- getattr self "tree_depth" ;;
  segs <- py_slice_upto octets tree_depth ;;
  ret (joinpath root segs).

(**
<<
	def _get_from_cache(self, digest: str) -> Optional[Dict[...]]:
		bitstream_name = f'{digest}.bin'
		bitstream_file = self.cache_dir / bitstream_name

		# Cache Miss
		if not bitstream_file.exists():
			return None

		return {
			'name': bitstream_name,
			'products': LocalBuildProducts(str(self.cache_dir))
		}
>> *)
Definition _get_from_cache (self : Self) (digest : string)
  : M (option CacheEntry) :=
  let bitstream_name := digest +:+ ".bin" in
  cache_dir <- getattr self "cache_dir" ;;
  bitstream_file <- truediv cache_dir bitstream_name ;;
  ex <- path_exists bitstream_file ;;
  if negb ex then ret None
  else
    cache_dir' <- getattr self "cache_dir" ;;
    ret (Some {| ce_name := bitstream_name;
                 ce_products := mkProducts (py_str cache_dir') |}).

(**
<<
	def _store_to_cache(self, digest: str, prod: LocalBuildProducts, name: str) -> None:
		bitstream_name = f'{digest}.bin'
		bitstream_file = self.cache_dir / bitstream_name

		# Dump the bitstream to cache
		with bitstream_file.open('wb') as bit:
			bit.write(prod.get(f'{name}.bin'))

		# If we are caching the RTL, do so
		if self.cache_rtl:
			rtl_name = f'{digest}.debug.v.xz'
			rtl_file = self.cache_dir / rtl_name

			lzma_cpr = LZMACompressor()
			with rtl_file.open('wb') as rtl:
				rtl.write(lzma_cpr.compress(prod.get(f'{name}.debug.v')))
				rtl.write(lzma_cpr.flush())
>> *)
Definition _store_to_cache (self : Self) (digest : string)
    (prod : LocalBuildProducts) (name : string) : M unit :=
  let bitstream_name := digest +:+ ".bin" in
  cache_dir <- getattr self "cache_dir" ;;
  bitstream_file <- truediv cache_dir bitstream_name ;;
  open_wb bitstream_file ;;
  bits <- products_get prod (name +:+ ".bin") ;;
  file_write bitstream_file bits ;;
  rtl_on <- cache_rtl self ;;
  if rtl_on then
    let rtl_name := digest +:+ ".debug.v.xz" in
    cache_dir' <- getattr self "cache_dir" ;;
    rtl_file <- truediv cache_dir' rtl_name ;;
    open_wb rtl_file ;;
    src <- products_get prod (name +:+ ".debug.v") ;;
    file_write rtl_file (lzma_compress src) ;;
    file_write rtl_file (lzma_flush src)
  else ret tt.

(**
<<
		skip_cache: bool = kwargs.get('skip_cache', False)
		plan = super().build(
			elaboratable, name, build_dir, do_build = False,
			program_opts = program_opts, do_program = False,
			**kwargs
		)
		if not do_build:
			return (name, plan)

		digest = plan.digest(size = 32).hex()
		cached = self._get_from_cache(digest)

		if cached is None or skip_cache:
			prod = plan.execute_local(build_dir)
			if not skip_cache:
				self._store_to_cache(digest, prod, name)
		else:
			name = cached['name']
			prod = cached['products']

		return (name, prod)
>> *)
Definition _build_elaboratable (self : Self) (elaboratable : Elaboratable)
    (name build_dir : string) (do_build : bool)
    (program_opts : option (gmap string string)) (do_program : bool)
    (kwargs : gmap string PyVal) : M (string * BuildOutput) :=
  let skip_cache := default (VBool false) (kwargs !! "skip_cache") in
  plan <- super_build self elaboratable name build_dir false
                      program_opts false kwargs ;;
  if negb do_build then ret (name, OutPlan plan)
  else
    let digest := bytes_hex (plan_digest plan 32) in
    cached <- _get_from_cache self digest ;;
    let build_fresh :=
      prod <- execute_local plan build_dir ;;
      (if negb (truthy skip_cache)
       then _store_to_cache self digest prod name
       else ret tt) ;;
      ret (name, OutProducts prod) in
    match cached with
    | None => build_fresh
    | Some entry =>
        if truthy skip_cache then build_fresh
        else ret (ce_name entry, OutProducts (ce_products entry))
    end.

(** [build]: [do_program] is not passed on. *)
Definition build (self : Self) (elaboratable : Elaboratable)
    (name build_dir : string) (do_build : bool)
    (program_opts : option (gmap string string)) (do_program : bool)
    (kwargs : gmap string PyVal) : M (string * BuildOutput) :=
  _build_elaboratable self elaboratable name build_dir do_build
                      program_opts false kwargs.

End Mixin.

(** ** The shard tree, as the specification describes it *)

Definition is_lower_hex (c : ascii) : bool :=
  let n := nat_of_ascii c in
  ((48 <=? n)%nat && (n <=? 57)%nat) || ((97 <=? n)%nat && (n <=? 102)%nat).

(** A label [00] .. [ff]: two lowercase hexadecimal digits. *)
Definition is_label (s : string) : bool :=
  match s with
  | String a (String b EmptyString) => is_lower_hex a && is_lower_hex b
  | _ => false
  end.

(** [p] is a directory of the complete 256-ary tree of the given depth
    below [root]: [root] followed by one to [depth] labels. *)
Definition in_shard_tree (root : Path) (depth : nat) (p : Path) : Prop :=
  exists ls : list string,
    p = root ++ ls
    /\ (1 <= length ls)%nat /\ (length ls <= depth)%nat
    /\ Forall (fun l => is_label l = true) ls.

(** The same tree as a finite set, by recursion on the depth. *)
Fixpoint shard_tree (depth : nat) (root : Path) : gset Path :=
  match depth with
  | O => ∅
  | S depth' =>
      ⋃ (map (fun i => {[root ++ [fmt_02x i]]}
                       ∪ shard_tree depth' (root ++ [fmt_02x i]))
             (seq 0 256))
  end.

(** The outcome C3 words for the three operations: an attribute-lookup
    error, with the world as it was before the call. *)
Definition raises_attribute_error_untouched {A} (c : M A) (w : World) : Prop :=
  exists attr, c w = (Raise (AttributeError attr), w).

(** ** Concrete inputs *)

(** A working directory [/work] with nothing in it. *)
Definition ex_fs : FS := mkFS {[ []; ["work"] ]} ∅.

Definition ex_world : World := mkWorld ex_fs [] ["work"].

(** A plan whose digest is [size] bytes [0xab] and whose execution
    leaves [top.bin] and [top.debug.v] in the build directory. *)
Definition ex_execute (build_dir : string) (f : FS)
  : result LocalBuildProducts * FS :=
  let dir := path_div ["work"] build_dir in
  (Ok (mkProducts build_dir),
   mkFS ({[dir]} ∪ fs_dirs f)
        (<[path_div dir "top.bin" := [Byte.x7f; Byte.x42; Byte.x49; Byte.x54]]>
           (<[path_div dir "top.debug.v" := [Byte.x2f; Byte.x2f]]> (fs_files f)))).

Definition ex_plan : BuildPlan :=
  mkPlan (fun size => repeat Byte.xab size) ex_execute.

Definition ex_digest : string := Eval vm_compute in bytes_hex (plan_digest ex_plan 32).

(** A plan whose execution fails. *)
Definition ex_plan_failing : BuildPlan :=
  mkPlan (fun size => repeat Byte.xab size)
         (fun _ f => (Raise (ExternalError "toolchain failed"), f)).

(** A platform that defines neither [cache_dir] nor [tree_depth]. *)
Definition ex_host : @Host unit :=
  mkHost ∅ (fun _ _ _ _ _ _ _ f => (Ok ex_plan, f)).

(** The instance [__init__] builds on it in [ex_world]. *)
Definition ex_self : @Self unit :=
  mkSelf ["work"; ".torii_cache"] 1 true ex_host.

(** The same instance with a cache tree of depth [0]. *)
Definition ex_self_flat : @Self unit :=
  mkSelf ["work"; ".torii_cache"] 0 true ex_host.

(** A platform that does define [cache_dir], as [/work/cache]. *)
Definition ex_host_dir (plan : BuildPlan) : @Host unit :=
  mkHost {[ "cache_dir" := VPath ["work"; "cache"] ]}
         (fun _ _ _ _ _ _ _ f => (Ok plan, f)).

Definition ex_self_dir (plan : BuildPlan) : @Self unit :=
  mkSelf ["work"; ".torii_cache"] 1 true (ex_host_dir plan).

(** A world whose [/work/cache] holds an entry for [ex_digest]. *)
Definition ex_fs_cached : FS :=
  mkFS {[ []; ["work"]; ["work"; "cache"] ]}
       {[ ["work"; "cache"; ex_digest +:+ ".bin"] := [Byte.x01; Byte.x02] ]}.

Definition ex_world_cached : World := mkWorld ex_fs_cached [] ["work"].

(** A world whose [/work/cache] is empty. *)
Definition ex_fs_empty_cache : FS :=
  mkFS {[ []; ["work"]; ["work"; "cache"] ]} ∅.

Definition ex_world_empty_cache : World := mkWorld ex_fs_empty_cache [] ["work"].

(** The world after the cache tree of [ex_self_flat] exists. *)
Definition ex_world_rooted : World :=
  mkWorld (mkFS {[ []; ["work"]; ["work"; ".torii_cache"] ]} ∅) [] ["work"].

Definition ex_lzma (data : list Byte.byte) : list Byte.byte := data.

(** [ex_world] after a build in [/work/build]: the artifact set
    [LocalBuildProducts("build")] holds [top.bin] and [top.debug.v]. *)
Definition ex_world_built : World :=
  mkWorld (snd (ex_execute "build" ex_fs)) [] ["work"].

(** The entry a lookup of [ex_digest] finds in [ex_world_cached]. *)
Definition ex_entry : CacheEntry :=
  mkEntry (ex_digest +:+ ".bin") (mkProducts "/work/cache").

(** ** Paths of a cache entry and of an artifact *)

(** [self.cache_dir / f'{digest}.bin'], for a [cache_dir] that is a path. *)
Definition bitstream_file (cache_dir : Path) (digest : string) : Path :=
  path_div cache_dir (digest +:+ ".bin").

(** [self.cache_dir / f'{digest}.debug.v.xz'] *)
Definition rtl_file (cache_dir : Path) (digest : string) : Path :=
  path_div cache_dir (digest +:+ ".debug.v.xz").

(** The file [prod.get(filename)] reads. *)
Definition artifact_file (w : World) (prod : LocalBuildProducts)
    (filename : string) : Path :=
  path_div (path_div (w_cwd w) (lbp_root prod)) filename.

(** A platform whose elaboration fails. *)
Definition ex_host_failing : @Host unit :=
  mkHost ∅ (fun _ _ _ _ _ _ _ f => (Raise (ExternalError "elaboration failed"), f)).

Definition ex_self_failing : @Self unit :=
  mkSelf ["work"; ".torii_cache"] 1 true ex_host_failing.

(** A plan whose execution leaves [top.bin] but no [top.debug.v]. *)
Definition ex_plan_nodebug : BuildPlan :=
  mkPlan (fun size => repeat Byte.xab size)
         (fun build_dir f =>
            let dir := path_div ["work"] build_dir in
            (Ok (mkProducts build_dir),
             mkFS ({[dir]} ∪ fs_dirs f)
                  (<[path_div dir "top.bin" := [Byte.x7f]]> (fs_files f)))).

(** ** Normal forms of names and paths *)

Fixpoint no_slash (s : string) : bool :=
  match s with
  | EmptyString => true
  | String c s' => negb (Ascii.eqb c "/"%char) && no_slash s'
  end.

(** A component as [pathlib] keeps it: no [/], not empty, not [.]. *)
Definition comp_ok (c : string) : bool :=
  no_slash c && negb (String.eqb c EmptyString) && negb (String.eqb c ".").

(** ** Outcomes of a computation

    [triple P c Q E]: started in a world with [P], the computation [c]
    ends in a world with [Q a] when it returns [a], and in a world with
    [E] when it raises. *)
Definition triple {A} (P : World -> Prop) (c : M A)
    (Q : A -> World -> Prop) (E : World -> Prop) : Prop :=
  forall w r w', P w -> c w = (r, w') ->
    match r with
    | Ok a => Q a w'
    | Raise _ => E w'
    end.


(** The number of directories of a complete tree of the given depth:
    [256 + 256^2 + ... + 256^depth]. *)
Fixpoint tree_size (depth : nat) : nat :=
  match depth with
  | O => 0
  | S depth' => 256 * (1 + tree_size depth')
  end.

(** A platform that defines [cache_dir] and [tree_depth]. *)
Definition ex_host_full : @Host unit :=
  mkHost {[ "cache_dir" := VPath ["work"; "cache"]; "tree_depth" := VInt 1 ]}
         (fun _ _ _ _ _ _ _ f => (Ok ex_plan, f)).

Definition ex_self_full : @Self unit :=
  mkSelf ["work"; ".torii_cache"] 1 true ex_host_full.

(** [fs_wf] as a check that runs. *)
Definition fs_wf_b (f : FS) : bool :=
  bool_decide ([] ∈ fs_dirs f)
  && forallb (fun p => bool_decide (parent p ∈ fs_dirs f)) (elements (fs_dirs f))
  && forallb (fun p => bool_decide (parent p ∈ fs_dirs f)
                       && negb (bool_decide (p ∈ fs_dirs f)))
             (map fst (map_to_list (fs_files f))).

(** [ex_world_empty_cache] after a build in [/work/build]. *)
Definition ex_world_built_cache : World :=
  mkWorld (snd (ex_execute "build" ex_fs_empty_cache)) [] ["work"].


(** * Properties *)

Lemma str_slice_skip c s lo hi :
  str_slice (String c s) (S lo) (S hi) = str_slice s lo hi.
Proof. reflexivity. Qed.

Lemma decompose_cons2 a b s :
  _decompose_digest (String a (String b s)) =
  String a (String b EmptyString) :: _decompose_digest s.
Proof.
  unfold _decompose_digest.
  change (String.length (String a (String b s))) with (2 + String.length s)%nat.
  replace ((2 + String.length s) / 2)%nat with (S (String.length s / 2)).
  2:{ change 2%nat with (1 * 2)%nat at 2. rewrite Nat.div_add_l by lia. lia. }
  cbn [seq map]. f_equal.
  - unfold str_slice. cbn. now destruct s.
  - rewrite <- seq_shift, map_map. apply map_ext. intros i.
    change (S i * 2)%nat with (S (S (i * 2))).
    cbn [Nat.add]. now rewrite !str_slice_skip.
Qed.

Lemma decompose_short s :
  (String.length s < 2)%nat -> _decompose_digest s = [].
Proof.
  intros H. unfold _decompose_digest.
  rewrite Nat.div_small by lia. reflexivity.
Qed.

(** Induction on strings two characters at a time. *)
Lemma string_ind2 (P : string -> Prop) :
  P EmptyString -> (forall c, P (String c EmptyString)) ->
  (forall a b s, P s -> P (String a (String b s))) ->
  forall s, P s.
Proof.
  intros H0 H1 H2.
  fix IH 1. intros [|a [|b s]]; [exact H0 | apply H1 | apply H2, IH].
Qed.

Lemma str_concat_cons s l : str_concat (s :: l) = s +:+ str_concat l.
Proof. reflexivity. Qed.

(** The tokens, concatenated, are the longest even-length prefix. *)
Lemma decompose_concat s :
  str_concat (_decompose_digest s) =
  substring 0 (2 * (String.length s / 2)) s.
Proof.
  induction s as [|c|a b s IH] using string_ind2.
  - reflexivity.
  - reflexivity.
  - rewrite decompose_cons2, str_concat_cons, IH.
    change (String.length (String a (String b s))) with (2 + String.length s)%nat.
    replace ((2 + String.length s) / 2)%nat with (S (String.length s / 2)).
    2:{ change 2%nat with (1 * 2)%nat at 2. rewrite Nat.div_add_l by lia. lia. }
    replace (2 * S (String.length s / 2))%nat
      with (S (S (2 * (String.length s / 2)))) by lia.
    reflexivity.
Qed.

Lemma decompose_length s :
  length (_decompose_digest s) = (String.length s / 2)%nat.
Proof. unfold _decompose_digest. now rewrite length_map, length_seq. Qed.

Lemma substring_full s : substring 0 (String.length s) s = s.
Proof. induction s as [|c s IH]; cbn; [reflexivity | now rewrite IH]. Qed.

Lemma decompose_tokens_hex s :
  is_hex_string s = true ->
  Forall (fun t => String.length t = 2%nat /\ is_hex_string t = true)
         (_decompose_digest s).
Proof.
  induction s as [|c|a b s IH] using string_ind2; intros H.
  - constructor.
  - constructor.
  - rewrite decompose_cons2. cbn in H.
    apply andb_prop in H as [Ha H]. apply andb_prop in H as [Hb H].
    constructor; [|now apply IH].
    split; [reflexivity|]. cbn. now rewrite Ha, Hb.
Qed.

Lemma decompose_lookup s i :
  (i < String.length s / 2)%nat ->
  exists a b,
    _decompose_digest s !! i = Some (String a (String b EmptyString))
    /\ String.get (2 * i) s = Some a
    /\ String.get (2 * i + 1) s = Some b.
Proof.
  revert i. induction s as [|c|a b s IH] using string_ind2; intros i Hi.
  - cbn in Hi. lia.
  - cbn in Hi. lia.
  - rewrite decompose_cons2.
    change (String.length (String a (String b s))) with (2 + String.length s)%nat in Hi.
    replace ((2 + String.length s) / 2)%nat with (S (String.length s / 2)) in Hi.
    2:{ change 2%nat with (1 * 2)%nat at 2. rewrite Nat.div_add_l by lia. lia. }
    destruct i as [|i].
    + exists a, b. repeat split; reflexivity.
    + destruct (IH i) as (x & y & H1 & H2 & H3); [lia|].
      exists x, y. split; [exact H1|].
      replace (2 * S i)%nat with (S (S (2 * i))) by lia.
      split; [exact H2 | exact H3].
Qed.

(** C5.  For an even-length hexadecimal string [d], [_decompose_digest]
    yields [len(d)/2] tokens; every token has two characters, both
    hexadecimal; the [i]-th token consists of the characters of [d] at
    positions [2i] and [2i+1], so the tokens follow the order of the
    string; and the tokens concatenate to [d]. *)
Theorem decompose_even_hex (d : string) :
  Nat.even (String.length d) = true ->
  is_hex_string d = true ->
  length (_decompose_digest d) = (String.length d / 2)%nat
  /\ Forall (fun t => String.length t = 2%nat /\ is_hex_string t = true)
            (_decompose_digest d)
  /\ (forall i, (i < String.length d / 2)%nat ->
        exists a b,
          _decompose_digest d !! i = Some (String a (String b EmptyString))
          /\ String.get (2 * i) d = Some a
          /\ String.get (2 * i + 1) d = Some b)
  /\ str_concat (_decompose_digest d) = d.
Proof.
  intros Heven Hhex.
  split; [apply decompose_length|].
  split; [now apply decompose_tokens_hex|].
  split; [intros i; apply decompose_lookup|].
  rewrite decompose_concat.
  apply Nat.even_spec in Heven. destruct Heven as [k Hk].
  assert (E : (String.length d / 2 = k)%nat).
  { rewrite Hk, (Nat.mul_comm 2 k). apply Nat.div_mul. lia. }
  rewrite E, <- Hk. apply substring_full.
Qed.

Lemma decompose_even_hex_witness :
  Nat.even (String.length "ab12cd") = true
  /\ is_hex_string "ab12cd" = true
  /\ length (_decompose_digest "ab12cd") = (String.length "ab12cd" / 2)%nat
  /\ str_concat (_decompose_digest "ab12cd") = "ab12cd".
Proof.
  split; [reflexivity|]. split; [reflexivity|].
  destruct (decompose_even_hex "ab12cd") as (H1 & _ & _ & H4);
    [reflexivity | reflexivity |].
  split; [exact H1 | exact H4].
Defined.

(** C10.  For a string of odd length (hexadecimal or not),
    [_decompose_digest] yields [floor(len/2)] tokens whose concatenation
    is the input without its final character.  [_decompose_digest] is a
    total function: it has no error outcome on any string. *)
Theorem decompose_odd_drops_last (d : string) :
  Nat.odd (String.length d) = true ->
  length (_decompose_digest d) = (String.length d / 2)%nat
  /\ str_concat (_decompose_digest d) = str_drop_last d.
Proof.
  intros Hodd.
  split; [apply decompose_length|].
  rewrite decompose_concat. unfold str_drop_last. f_equal.
  apply Nat.odd_spec in Hodd. destruct Hodd as [k Hk].
  assert (E : (String.length d / 2 = k)%nat).
  { rewrite Hk. replace (2 * k + 1)%nat with (1 + k * 2)%nat by lia.
    rewrite Nat.div_add by lia. reflexivity. }
  rewrite E. lia.
Qed.

Lemma decompose_odd_drops_last_witness :
  Nat.odd (String.length "ab12c") = true
  /\ length (_decompose_digest "ab12c") = (String.length "ab12c" / 2)%nat
  /\ str_concat (_decompose_digest "ab12c") = str_drop_last "ab12c".
Proof.
  split; [reflexivity|].
  apply (decompose_odd_drops_last "ab12c"). reflexivity.
Defined.

(** ** The monad *)

Lemma bind_ok {A B} (c : M A) (k : A -> M B) w a w' :
  c w = (Ok a, w') -> bind c k w = k a w'.
Proof. intros H. unfold bind. now rewrite H. Qed.

Lemma bind_raise {A B} (c : M A) (k : A -> M B) w e w' :
  c w = (Raise e, w') -> bind c k w = (Raise e, w').
Proof. intros H. unfold bind. now rewrite H. Qed.

(** ** Attribute lookups of the cache store *)

Section Store.

Context {Elaboratable : Type}.
Variable lzma_compress : list Byte.byte -> list Byte.byte.
Variable lzma_flush : list Byte.byte -> list Byte.byte.

(** [_get_from_cache] case by case on what [self.cache_dir] is. *)
Lemma get_from_cache_cases (self : @Self Elaboratable) digest w :
  _get_from_cache self digest w =
  match host_attrs (host self) !! "cache_dir" with
  | None => (Raise (AttributeError "cache_dir"), w)
  | Some (VPath p) =>
      if fs_exists (w_fs w) (path_div p (digest +:+ ".bin"))
      then (Ok (Some {| ce_name := digest +:+ ".bin";
                        ce_products := mkProducts (str_of_path p) |}), w)
      else (Ok None, w)
  | Some _ => (Raise TypeError, w)
  end.
Proof.
  unfold _get_from_cache, getattr.
  destruct (host_attrs (host self) !! "cache_dir") as [[| | | |p]|] eqn:E;
    try reflexivity.
  unfold bind, ret, truediv, path_exists. cbn.
  destruct (fs_exists (w_fs w) (path_div p (digest +:+ ".bin")));
    reflexivity.
Qed.

(** A lookup never changes the world. *)
Lemma get_from_cache_readonly (self : @Self Elaboratable) digest w r w' :
  _get_from_cache self digest w = (r, w') -> w' = w.
Proof.
  rewrite get_from_cache_cases.
  destruct (host_attrs (host self) !! "cache_dir") as [[| | | |p]|];
    try (intros [= _ <-]; reflexivity).
  destruct (fs_exists _ _); intros [= _ <-]; reflexivity.
Qed.

(** A hit is named after the digest. *)
Lemma get_from_cache_hit_name (self : @Self Elaboratable) digest w entry w' :
  _get_from_cache self digest w = (Ok (Some entry), w') ->
  ce_name entry = digest +:+ ".bin".
Proof.
  rewrite get_from_cache_cases.
  destruct (host_attrs (host self) !! "cache_dir") as [[| | | |p]|];
    try discriminate.
  destruct (fs_exists _ _); [|discriminate].
  intros [= <- _]. reflexivity.
Qed.

Lemma get_from_cache_no_attr (self : @Self Elaboratable) digest w :
  host_attrs (host self) !! "cache_dir" = None ->
  _get_from_cache self digest w = (Raise (AttributeError "cache_dir"), w).
Proof. intros H. rewrite get_from_cache_cases. now rewrite H. Qed.

Lemma store_to_cache_no_attr (self : @Self Elaboratable) digest prod name w :
  host_attrs (host self) !! "cache_dir" = None ->
  _store_to_cache lzma_compress lzma_flush self digest prod name w =
  (Raise (AttributeError "cache_dir"), w).
Proof.
  intros H. unfold _store_to_cache, getattr. now rewrite H.
Qed.

(** ** The build orchestrator *)

(** C7.  A build with [do_build] true and a false [skip_cache] whose
    lookup reports a hit returns the products of the cached entry under
    the entry's name, which is [<digest>.bin] and not the input [name].
    The executor is not invoked: the trace gains the elaboration only,
    and the file system is as the elaboration left it. *)
Theorem build_cache_hit (self : @Self Elaboratable) elaboratable name build_dir
    program_opts do_program kwargs w plan f1 entry w2 :
  truthy (default (VBool false) (kwargs !! "skip_cache")) = false ->
  host_build (host self) elaboratable name build_dir false program_opts
             false kwargs (w_fs w) = (Ok plan, f1) ->
  _get_from_cache self (bytes_hex (plan_digest plan 32))
    (mkWorld f1 (EvElaborate name build_dir :: w_trace w) (w_cwd w)) =
    (Ok (Some entry), w2) ->
  _build_elaboratable lzma_compress lzma_flush self elaboratable name
    build_dir true program_opts do_program kwargs w =
    (Ok (ce_name entry, OutProducts (ce_products entry)),
     mkWorld f1 (EvElaborate name build_dir :: w_trace w) (w_cwd w))
  /\ ce_name entry = bytes_hex (plan_digest plan 32) +:+ ".bin".
Proof.
  intros Hskip Hplan Hhit.
  pose proof (get_from_cache_readonly _ _ _ _ _ Hhit) as ->.
  split; [|exact (get_from_cache_hit_name _ _ _ _ _ Hhit)].
  unfold _build_elaboratable.
  erewrite bind_ok; [|unfold super_build; now rewrite Hplan].
  cbn [negb]. erewrite bind_ok; [|exact Hhit].
  now rewrite Hskip.
Qed.

(** C9.  When a build reaches the execution step (elaboration returned a
    plan, and the lookup missed or [skip_cache] is set) and the executor
    fails, the build fails with the executor's error; the trace ends
    with the call of the executor and holds no write, and the file
    system is as the executor left it: nothing was stored. *)
Theorem build_execute_failure (self : @Self Elaboratable) elaboratable name build_dir
    program_opts do_program kwargs w plan f1 cached w2 e f3 :
  host_build (host self) elaboratable name build_dir false program_opts
             false kwargs (w_fs w) = (Ok plan, f1) ->
  _get_from_cache self (bytes_hex (plan_digest plan 32))
    (mkWorld f1 (EvElaborate name build_dir :: w_trace w) (w_cwd w)) =
    (Ok cached, w2) ->
  cached = None
  \/ truthy (default (VBool false) (kwargs !! "skip_cache")) = true ->
  plan_execute_local plan build_dir f1 = (Raise e, f3) ->
  _build_elaboratable lzma_compress lzma_flush self elaboratable name
    build_dir true program_opts do_program kwargs w =
    (Raise e,
     mkWorld f3 (EvExecute build_dir :: EvElaborate name build_dir :: w_trace w)
             (w_cwd w)).
Proof.
  intros Hplan Hlook Hreach Hexec.
  pose proof (get_from_cache_readonly _ _ _ _ _ Hlook) as ->.
  unfold _build_elaboratable.
  erewrite bind_ok; [|unfold super_build; now rewrite Hplan].
  cbn [negb]. erewrite bind_ok; [|exact Hlook].
  assert (Hex :
    execute_local plan build_dir
      (mkWorld f1 (EvElaborate name build_dir :: w_trace w) (w_cwd w)) =
    (Raise e,
     mkWorld f3 (EvExecute build_dir :: EvElaborate name build_dir :: w_trace w)
             (w_cwd w))).
  { unfold execute_local. cbn. now rewrite Hexec. }
  destruct cached as [entry|]; [|now apply bind_raise].
  destruct Hreach as [Hnone|Hskip]; [discriminate|].
  rewrite Hskip. now apply bind_raise.
Qed.

(** With [skip_cache] set, once the lookup has returned (hit or miss),
    the executor runs and nothing is stored. *)
Lemma build_skip_cache_after_lookup (self : @Self Elaboratable) elaboratable name build_dir
    program_opts do_program kwargs w plan f1 cached w2 prod f3 :
  truthy (default (VBool false) (kwargs !! "skip_cache")) = true ->
  host_build (host self) elaboratable name build_dir false program_opts
             false kwargs (w_fs w) = (Ok plan, f1) ->
  _get_from_cache self (bytes_hex (plan_digest plan 32))
    (mkWorld f1 (EvElaborate name build_dir :: w_trace w) (w_cwd w)) =
    (Ok cached, w2) ->
  plan_execute_local plan build_dir f1 = (Ok prod, f3) ->
  _build_elaboratable lzma_compress lzma_flush self elaboratable name
    build_dir true program_opts do_program kwargs w =
    (Ok (name, OutProducts prod),
     mkWorld f3 (EvExecute build_dir :: EvElaborate name build_dir :: w_trace w)
             (w_cwd w)).
Proof.
  intros Hskip Hplan Hlook Hexec.
  pose proof (get_from_cache_readonly _ _ _ _ _ Hlook) as ->.
  unfold _build_elaboratable.
  erewrite bind_ok; [|unfold super_build; now rewrite Hplan].
  cbn [negb]. erewrite bind_ok; [|exact Hlook].
  rewrite Hskip. cbn [negb].
  assert (Hfresh :
    (prod <- execute_local plan build_dir ;;
     ret tt ;; ret (name, OutProducts prod))
      (mkWorld f1 (EvElaborate name build_dir :: w_trace w) (w_cwd w)) =
    (Ok (name, OutProducts prod),
     mkWorld f3 (EvExecute build_dir :: EvElaborate name build_dir :: w_trace w)
             (w_cwd w))).
  { erewrite bind_ok; [|unfold execute_local; cbn; now rewrite Hexec].
    reflexivity. }
  destruct cached; exact Hfresh.
Qed.

End Store.

(** ** Labels of the shard tree *)

Lemma fmt_02x_checked :
  forallb (fun i =>
             is_label (fmt_02x i)
             && negb (is_absolute (fmt_02x i))
             && bool_decide (path_parts (fmt_02x i) = [fmt_02x i]))
          (seq 0 256) = true.
Proof. vm_compute. reflexivity. Qed.

Lemma fmt_02x_facts i :
  (i < 256)%nat ->
  is_label (fmt_02x i) = true
  /\ forall root, path_div root (fmt_02x i) = root ++ [fmt_02x i].
Proof.
  intros Hi.
  pose proof fmt_02x_checked as H.
  rewrite forallb_forall in H. specialize (H i).
  destruct (andb_prop _ _ (H ltac:(apply in_seq; lia))) as [H12 H3].
  destruct (andb_prop _ _ H12) as [H1 H2].
  split; [exact H1|]. intros root. unfold path_div.
  apply negb_true_iff in H2. rewrite H2.
  apply bool_decide_eq_true in H3. now rewrite H3.
Qed.

Lemma fmt_02x_nodup : NoDup (map fmt_02x (seq 0 256)).
Proof. apply (bool_decide_eq_true_1 _). vm_compute. reflexivity. Qed.

Lemma is_lower_hex_cases c :
  is_lower_hex c = true ->
  In c (list_ascii_of_string "0123456789abcdef").
Proof.
  destruct c as [[] [] [] [] [] [] [] []]; intros H;
    try discriminate H; cbn; tauto.
Qed.

Lemma lower_hex_pairs_checked :
  (let labels := map fmt_02x (seq 0 256) in
   forallb (fun a =>
     forallb (fun b =>
       existsb (String.eqb (String a (String b EmptyString))) labels)
       (list_ascii_of_string "0123456789abcdef"))
     (list_ascii_of_string "0123456789abcdef")) = true.
Proof. vm_compute. reflexivity. Qed.

(** Every label is the rendering of a number below 256. *)
Lemma is_label_fmt s :
  is_label s = true -> exists i, (i < 256)%nat /\ s = fmt_02x i.
Proof.
  destruct s as [|a [|b [|]]]; try discriminate. cbn.
  intros H. apply andb_prop in H as [Ha Hb].
  apply is_lower_hex_cases in Ha, Hb.
  pose proof lower_hex_pairs_checked as H. cbv zeta in H.
  rewrite forallb_forall in H. specialize (H a Ha).
  rewrite forallb_forall in H. specialize (H b Hb).
  apply existsb_exists in H. destruct H as (l & Hin & Heq).
  apply String.eqb_eq in Heq. apply in_map_iff in Hin.
  destruct Hin as (i & Hi & Hin). apply in_seq in Hin.
  exists i. split; [lia | congruence].
Qed.

(** ** File-system primitives *)

Lemma fs_exists_false f p :
  fs_exists f p = false <-> (p ∉ fs_dirs f) /\ fs_files f !! p = None.
Proof.
  unfold fs_exists, fs_is_dir, fs_is_file.
  rewrite orb_false_iff, bool_decide_eq_false.
  destruct (fs_files f !! p); intuition congruence.
Qed.

Lemma parent_snoc (root : Path) x : parent (root ++ [x]) = root.
Proof. apply removelast_last. Qed.

Lemma mkdir_fresh p w :
  fs_exists (w_fs w) p = false ->
  parent p ∈ fs_dirs (w_fs w) ->
  mkdir p w =
  (Ok tt, mkWorld (mkFS ({[p]} ∪ fs_dirs (w_fs w)) (fs_files (w_fs w)))
                  (EvMkdir p :: w_trace w) (w_cwd w)).
Proof.
  intros Hex Hpar. unfold mkdir. cbn. rewrite Hex.
  unfold fs_is_dir. now rewrite bool_decide_eq_true_2.
Qed.

(** In a consistent file system every entry lies below directories. *)
Lemma fs_wf_prefix f (root ls : Path) :
  fs_wf f -> ls <> [] -> fs_exists f (root ++ ls) = true -> root ∈ fs_dirs f.
Proof.
  intros (Hroot & Hdir & Hfile).
  induction ls as [|x ls IH] using rev_ind; intros Hne Hex; [congruence|].
  assert (Hpar : root ++ ls ∈ fs_dirs f).
  { rewrite app_assoc in Hex. unfold fs_exists in Hex.
    apply orb_true_iff in Hex as [Hd|Hf].
    - apply bool_decide_eq_true in Hd. apply Hdir in Hd.
      now rewrite parent_snoc in Hd.
    - destruct (Hfile _ Hf) as [Hpar _]. now rewrite parent_snoc in Hpar. }
  destruct ls as [|y ls].
  - now rewrite app_nil_r in Hpar.
  - apply IH; [discriminate|].
    unfold fs_exists, fs_is_dir. now rewrite bool_decide_eq_true_2.
Qed.

(** ** The error of a missing parent directory *)

Lemma find_map_seq {A} (P : A -> bool) (g : nat -> A) n :
  forall a x,
    find P (map g (seq a n)) = Some x ->
    exists k, (a <= k < a + n)%nat /\ x = g k /\ P x = true
              /\ forall j, (a <= j < k)%nat -> P (g j) = false.
Proof.
  induction n as [|n IH]; intros a x H; [discriminate|].
  cbn in H. destruct (P (g a)) eqn:Ha.
  - injection H as <-. exists a. repeat split; try lia. exact Ha.
  - destruct (IH _ _ H) as (k & Hk & -> & Hp & Hlt).
    exists k. repeat split; try lia; [exact Hp|].
    intros j Hj. destruct (decide (j = a)) as [->|]; [exact Ha|].
    apply Hlt. lia.
Qed.

Lemma find_map_seq_none {A} (P : A -> bool) (g : nat -> A) n :
  forall a,
    find P (map g (seq a n)) = None ->
    forall j, (a <= j < a + n)%nat -> P (g j) = false.
Proof.
  induction n as [|n IH]; intros a H j Hj; [lia|].
  cbn in H. destruct (P (g a)) eqn:Ha; [discriminate|].
  destruct (decide (j = a)) as [->|]; [exact Ha|].
  apply (IH _ H). lia.
Qed.

Lemma firstn_prefix_split (p : Path) n m :
  (n < m)%nat -> (m <= length p)%nat ->
  exists ls, ls <> [] /\ firstn m p = firstn n p ++ ls.
Proof.
  intros Hnm Hm.
  exists (firstn (m - n) (skipn n p)). split.
  - intros E. apply (f_equal (@length _)) in E.
    rewrite length_firstn, length_skipn in E. cbn in E. lia.
  - replace m with (n + (m - n))%nat at 1 by lia.
    symmetry. apply take_take_drop.
Qed.

(** In a consistent file system the error is [NotADirectoryError]
    exactly when some proper ancestor is a regular file. *)
Lemma no_parent_error_wf f p :
  fs_wf f ->
  no_parent_error f p =
  if existsb (fs_is_file f) (ancestors p)
  then NotADirectoryError p else FileNotFoundError p.
Proof.
  intros Hwf. unfold no_parent_error, ancestors.
  destruct (find _ _) as [q|] eqn:Hfind.
  - apply find_map_seq in Hfind as (k & Hk & -> & Hnd & Hlt).
    destruct (fs_is_file f (firstn k p)) eqn:Hfile.
    + replace (existsb _ _) with true; [reflexivity|].
      symmetry. apply existsb_exists. exists (firstn k p). split; [|exact Hfile].
      apply in_map_iff. exists k. split; [reflexivity|]. apply in_seq. lia.
    + replace (existsb _ _) with false; [reflexivity|].
      symmetry. apply not_true_is_false. intros Hex.
      apply existsb_exists in Hex as (q & Hin & Hq).
      apply in_map_iff in Hin as (m & <- & Hm). apply in_seq in Hm.
      destruct (lt_eq_lt_dec m k) as [[Hlt'|Heq]|Hgt].
      * specialize (Hlt m ltac:(lia)). apply negb_false_iff in Hlt.
        apply bool_decide_eq_true in Hlt.
        destruct Hwf as (_ & _ & Hf). destruct (Hf _ Hq) as [_ Hn]. contradiction.
      * subst m. congruence.
      * destruct (firstn_prefix_split p k m Hgt ltac:(lia)) as (ls & Hne & E).
        apply negb_true_iff, bool_decide_eq_false in Hnd. apply Hnd.
        apply (fs_wf_prefix f _ ls Hwf Hne). rewrite <- E.
        unfold fs_exists. now rewrite Hq, orb_true_r.
  - replace (existsb _ _) with false; [reflexivity|].
    symmetry. apply not_true_is_false. intros Hex.
    apply existsb_exists in Hex as (q & Hin & Hq).
    apply in_map_iff in Hin as (m & <- & Hm). apply in_seq in Hm.
    pose proof (find_map_seq_none _ _ _ _ Hfind m ltac:(lia)) as Hd.
    apply negb_false_iff, bool_decide_eq_true in Hd.
    destruct Hwf as (_ & _ & Hf). destruct (Hf _ Hq) as [_ Hn]. contradiction.
Qed.

(** ** The shard tree *)

Lemma shard_tree_elem depth :
  forall root p, p ∈ shard_tree depth root <-> in_shard_tree root depth p.
Proof.
  induction depth as [|d IH]; intros root p.
  - cbn. split; [set_solver|].
    intros (ls & _ & H1 & H0 & _). lia.
  - cbn [shard_tree]. rewrite elem_of_union_list. split.
    + intros (X & HX & Hp).
      apply list_elem_of_In, in_map_iff in HX.
      destruct HX as (i & <- & Hi). apply in_seq in Hi.
      destruct (fmt_02x_facts i ltac:(lia)) as [Hlab _].
      apply elem_of_union in Hp as [Hp|Hp].
      * apply elem_of_singleton in Hp. subst p.
        exists [fmt_02x i]. cbn. repeat split; try lia.
        now constructor.
      * apply IH in Hp. destruct Hp as (ls & -> & H1 & Hd & Hall).
        exists (fmt_02x i :: ls). cbn. rewrite <- app_assoc.
        repeat split; try lia. now constructor.
    + intros (ls & -> & H1 & Hd & Hall).
      destruct ls as [|l ls]; [cbn in H1; lia|].
      apply Forall_cons in Hall as [Hl Hall].
      destruct (is_label_fmt l Hl) as (i & Hi & ->).
      exists ({[root ++ [fmt_02x i]]} ∪ shard_tree d (root ++ [fmt_02x i])).
      split.
      * apply list_elem_of_In, in_map_iff. exists i.
        split; [reflexivity | apply in_seq; lia].
      * destruct ls as [|l' ls].
        -- apply elem_of_union_l. now apply elem_of_singleton.
        -- apply elem_of_union_r, IH. exists (l' :: ls).
           rewrite <- app_assoc. cbn in *.
           repeat split; try lia. exact Hall.
Qed.

Lemma shard_tree_below depth root p :
  p ∈ shard_tree depth root -> exists l ls, p = root ++ l :: ls.
Proof.
  intros H. apply shard_tree_elem in H.
  destruct H as ([|l ls] & -> & H1 & _); [cbn in H1; lia|].
  now exists l, ls.
Qed.

(** ** Tree initialisation *)

(** One level of [_init_dir]: the loop over the labels [l], given what
    the recursive call does on a fresh directory. *)
Lemma init_dir_loop (d : nat) (root : Path)
  (IHd : forall stub w,
      stub ∈ fs_dirs (w_fs w) ->
      (forall ls, ls <> [] -> fs_exists (w_fs w) (stub ++ ls) = false) ->
      exists w',
        _init_dir d stub w = (Ok tt, w')
        /\ fs_dirs (w_fs w') = fs_dirs (w_fs w) ∪ shard_tree d stub
        /\ fs_files (w_fs w') = fs_files (w_fs w)
        /\ w_cwd w' = w_cwd w) :
  forall (l : list nat) w,
    NoDup (map fmt_02x l) ->
    (forall i, In i l -> (i < 256)%nat) ->
    root ∈ fs_dirs (w_fs w) ->
    (forall i ls, In i l -> fs_exists (w_fs w) (root ++ fmt_02x i :: ls) = false) ->
    exists w',
      for_each l (fun i =>
        let cache_stub := path_div root (fmt_02x i) in
        ex <- path_exists cache_stub ;;
        if negb ex then mkdir cache_stub ;; _init_dir d cache_stub
        else ret tt) w = (Ok tt, w')
      /\ fs_dirs (w_fs w') =
         fs_dirs (w_fs w)
         ∪ ⋃ (map (fun i => {[root ++ [fmt_02x i]]}
                            ∪ shard_tree d (root ++ [fmt_02x i])) l)
      /\ fs_files (w_fs w') = fs_files (w_fs w)
      /\ w_cwd w' = w_cwd w.
Proof.
  induction l as [|i l IHl]; intros w Hnd Hlt Hroot Hfresh.
  - exists w. cbn. repeat split. now rewrite union_empty_r_L.
  - cbn [map] in Hnd. apply NoDup_cons in Hnd as [Hi Hnd].
    destruct (fmt_02x_facts i (Hlt i (or_introl eq_refl))) as [_ Hdiv].
    set (stub := root ++ [fmt_02x i]).
    assert (Hstub : fs_exists (w_fs w) stub = false)
      by (apply (Hfresh i []); now left).
    (* the directory is made *)
    set (w1 := mkWorld (mkFS ({[stub]} ∪ fs_dirs (w_fs w)) (fs_files (w_fs w)))
                       (EvMkdir stub :: w_trace w) (w_cwd w)).
    assert (Hmk : mkdir stub w = (Ok tt, w1)).
    { apply mkdir_fresh; [exact Hstub|]. unfold stub. now rewrite parent_snoc. }
    (* and filled *)
    destruct (IHd stub w1) as (w2 & Hrec & Hd2 & Hf2 & Hc2).
    { cbn. set_solver. }
    { intros ls Hls. apply fs_exists_false. cbn.
      specialize (Hfresh i ls (or_introl eq_refl)).
      apply fs_exists_false in Hfresh as [Hnd' Hnf'].
      unfold stub. rewrite <- app_assoc. cbn. split; [|exact Hnf'].
      intros Hin. apply elem_of_union in Hin as [Hin|Hin]; [|tauto].
      apply elem_of_singleton in Hin.
      apply app_inv_head in Hin. destruct ls; congruence. }
    (* the remaining labels *)
    destruct (IHl w2) as (w3 & Hloop & Hd3 & Hf3 & Hc3).
    { exact Hnd. }
    { intros j Hj. apply Hlt. now right. }
    { rewrite Hd2. cbn. apply elem_of_union_l, elem_of_union_r, Hroot. }
    { intros j ls Hj. apply fs_exists_false.
      specialize (Hfresh j ls (or_intror Hj)).
      apply fs_exists_false in Hfresh as [Hnd' Hnf'].
      rewrite Hf2, Hd2. cbn. split; [|exact Hnf'].
      assert (Hne : fmt_02x j <> fmt_02x i).
      { intros Heq. apply Hi. rewrite <- Heq.
        apply list_elem_of_In, in_map. exact Hj. }
      intros Hin. apply elem_of_union in Hin as [Hin|Hin].
      - apply elem_of_union in Hin as [Hin|Hin]; [|tauto].
        apply elem_of_singleton in Hin. unfold stub in Hin.
        apply app_inv_head in Hin. congruence.
      - apply shard_tree_below in Hin. destruct Hin as (l' & ls' & Hin).
        unfold stub in Hin. rewrite <- app_assoc in Hin.
        apply app_inv_head in Hin. cbn in Hin. congruence. }
    exists w3. split; [|split; [|split]].
    + cbn [for_each]. erewrite bind_ok; [exact Hloop|].
      cbv zeta. rewrite Hdiv. fold stub.
      erewrite bind_ok; [|unfold path_exists; rewrite Hstub; reflexivity].
      cbn [negb]. erewrite bind_ok; [exact Hrec | exact Hmk].
    + rewrite Hd3, Hd2. cbn [map]. rewrite union_list_cons. cbn. fold stub.
      apply set_eq. intros p. rewrite !elem_of_union. tauto.
    + now rewrite Hf3, Hf2.
    + now rewrite Hc3, Hc2.
Qed.

(** [_init_dir] on a fresh directory creates the complete tree. *)
Lemma init_dir_fresh (depth : nat) :
  forall root w,
    root ∈ fs_dirs (w_fs w) ->
    (forall ls, ls <> [] -> fs_exists (w_fs w) (root ++ ls) = false) ->
    exists w',
      _init_dir depth root w = (Ok tt, w')
      /\ fs_dirs (w_fs w') = fs_dirs (w_fs w) ∪ shard_tree depth root
      /\ fs_files (w_fs w') = fs_files (w_fs w)
      /\ w_cwd w' = w_cwd w.
Proof.
  induction depth as [|d IHd]; intros root w Hroot Hfresh.
  - exists w. cbn. repeat split. now rewrite union_empty_r_L.
  - cbn [_init_dir shard_tree].
    apply (init_dir_loop d root IHd (seq 0 256) w).
    + exact fmt_02x_nodup.
    + intros i Hi. apply in_seq in Hi. lia.
    + exact Hroot.
    + intros i ls _. now apply Hfresh.
Qed.

Lemma fs_grows_refl w : fs_grows w w.
Proof. split; [intros p Hp; exact Hp | split; reflexivity]. Qed.

Lemma fs_grows_trans w1 w2 w3 :
  fs_grows w1 w2 -> fs_grows w2 w3 -> fs_grows w1 w3.
Proof.
  intros (Hd1 & Hf1 & Hc1) (Hd2 & Hf2 & Hc2). split; [|split].
  - intros p Hp. apply Hd2, Hd1, Hp.
  - now rewrite Hf2.
  - now rewrite Hc2.
Qed.

(** [_init_dir] below an existing directory always succeeds, and only
    adds directories (whatever is already there). *)
Lemma init_dir_total (depth : nat) :
  forall root w,
    root ∈ fs_dirs (w_fs w) ->
    exists w', _init_dir depth root w = (Ok tt, w') /\ fs_grows w w'.
Proof.
  induction depth as [|d IHd]; intros root w Hroot.
  - exists w. split; [reflexivity | apply fs_grows_refl].
  - cbn [_init_dir].
    assert (Hlt : forall i, In i (seq 0 256) -> (i < 256)%nat)
      by (intros i Hi; apply in_seq in Hi; lia).
    revert w Hroot. induction (seq 0 256) as [|i l IHl]; intros w Hroot.
    + exists w. split; [reflexivity | apply fs_grows_refl].
    + destruct (fmt_02x_facts i (Hlt i (or_introl eq_refl))) as [_ Hdiv].
      cbn [for_each]. cbv zeta. rewrite Hdiv.
      destruct (fs_exists (w_fs w) (root ++ [fmt_02x i])) eqn:Hex.
      * destruct (IHl (fun j Hj => Hlt j (or_intror Hj)) w Hroot)
          as (w' & Hrun & Hg).
        exists w'. split; [|exact Hg].
        erewrite bind_ok; [exact Hrun|].
        erewrite bind_ok; [|unfold path_exists; rewrite Hex; reflexivity].
        reflexivity.
      * pose proof (mkdir_fresh (root ++ [fmt_02x i]) w Hex) as Hmk.
        rewrite parent_snoc in Hmk. specialize (Hmk Hroot).
        set (w1 := mkWorld (mkFS ({[root ++ [fmt_02x i]]} ∪ fs_dirs (w_fs w))
                                 (fs_files (w_fs w)))
                           (EvMkdir (root ++ [fmt_02x i]) :: w_trace w)
                           (w_cwd w)) in *.
        assert (Hin1 : root ++ [fmt_02x i] ∈ fs_dirs (w_fs w1))
          by (cbn; now apply elem_of_union_l, elem_of_singleton).
        destruct (IHd (root ++ [fmt_02x i]) w1 Hin1) as (w2 & Hrec & Hg2).
        assert (Hg1 : fs_grows w w2).
        { eapply fs_grows_trans; [|exact Hg2].
          split; [|split]; try reflexivity.
          cbn. intros p Hp. now apply elem_of_union_r. }
        destruct (IHl (fun j Hj => Hlt j (or_intror Hj)) w2
                      (proj1 Hg1 _ Hroot)) as (w' & Hrun & Hg).
        exists w'. split; [|eapply fs_grows_trans; eassumption].
        erewrite bind_ok; [exact Hrun|].
        erewrite bind_ok; [|unfold path_exists; rewrite Hex; reflexivity].
        cbn [negb]. erewrite bind_ok; [exact Hrec | exact Hmk].
Qed.

Section Init.

Context {Elaboratable : Type}.

(** The three ways a call of [_init_cache_dir] can go. *)
Lemma init_cache_dir_cases (self : @Self Elaboratable) w :
  (fs_exists (w_fs w) (_cache_root self) = true
   /\ _init_cache_dir self w = (Ok tt, w))
  \/ (fs_exists (w_fs w) (_cache_root self) = false
      /\ fs_is_dir (w_fs w) (parent (_cache_root self)) = false
      /\ _init_cache_dir self w =
         (Raise (no_parent_error (w_fs w) (_cache_root self)), w))
  \/ (fs_exists (w_fs w) (_cache_root self) = false
      /\ fs_is_dir (w_fs w) (parent (_cache_root self)) = true
      /\ exists w',
           _init_cache_dir self w = (Ok tt, w')
           /\ fs_grows w w'
           /\ _cache_root self ∈ fs_dirs (w_fs w')).
Proof.
  unfold _init_cache_dir.
  destruct (fs_exists (w_fs w) (_cache_root self)) eqn:Hex.
  - left. split; [reflexivity|].
    erewrite bind_ok; [|unfold path_exists; rewrite Hex; reflexivity].
    reflexivity.
  - right.
    destruct (fs_is_dir (w_fs w) (parent (_cache_root self))) eqn:Hpar.
    + right. split; [reflexivity|]. split; [reflexivity|].
      assert (Hp : parent (_cache_root self) ∈ fs_dirs (w_fs w))
        by (now apply bool_decide_eq_true in Hpar).
      pose proof (mkdir_fresh _ w Hex Hp) as Hmk.
      set (w1 := mkWorld (mkFS ({[_cache_root self]} ∪ fs_dirs (w_fs w))
                               (fs_files (w_fs w)))
                         (EvMkdir (_cache_root self) :: w_trace w)
                         (w_cwd w)) in *.
      assert (Hin1 : _cache_root self ∈ fs_dirs (w_fs w1))
        by (cbn; now apply elem_of_union_l, elem_of_singleton).
      destruct (init_dir_total (_cache_depth self) (_cache_root self) w1 Hin1)
        as (w' & Hrun & Hg).
      exists w'. split; [|split].
      * erewrite bind_ok; [|unfold path_exists; rewrite Hex; reflexivity].
        cbv beta iota. erewrite bind_ok; [|exact Hmk].
        erewrite bind_ok; [|reflexivity]. exact Hrun.
      * eapply fs_grows_trans; [|exact Hg].
        split; [|split]; try reflexivity.
        cbn. intros p Hq. now apply elem_of_union_r.
      * apply (proj1 Hg), Hin1.
    + left. split; [reflexivity|]. split; [reflexivity|].
      erewrite bind_ok; [|unfold path_exists; rewrite Hex; reflexivity].
      cbv beta iota. apply bind_raise. unfold mkdir. cbn. now rewrite Hex, Hpar.
Qed.

(** Initialisation writes no file. *)
Lemma init_cache_dir_grows (self : @Self Elaboratable) w r w' :
  _init_cache_dir self w = (r, w') -> fs_grows w w'.
Proof.
  intros H.
  destruct (init_cache_dir_cases self w)
    as [(_ & E)|[(_ & _ & E)|(_ & _ & w2 & E & Hg & _)]];
    rewrite E in H; injection H as _ <-;
    [apply fs_grows_refl | apply fs_grows_refl | exact Hg].
Qed.

End Init.

Section Tree.

Context {Elaboratable : Type}.

(** A second initialisation finds the world of the first and leaves it
    as it is, trace included. *)
Lemma init_cache_dir_again (self : @Self Elaboratable) w r1 w1 :
  _init_cache_dir self w = (r1, w1) ->
  _init_cache_dir self w1 = (r1, w1).
Proof.
  intros H.
  destruct (init_cache_dir_cases self w)
    as [(_ & E)|[(_ & _ & E)|(_ & _ & w2 & E & Hg & Hin)]].
  - rewrite E in H. injection H as <- <-. exact E.
  - rewrite E in H. injection H as <- <-. exact E.
  - rewrite E in H. injection H as <- <-.
    assert (Hex : fs_exists (w_fs w2) (_cache_root self) = true).
    { unfold fs_exists, fs_is_dir. now rewrite bool_decide_eq_true_2. }
    destruct (init_cache_dir_cases self w2)
      as [(_ & E2)|[(Hno & _)|(Hno & _)]]; [exact E2 | congruence | congruence].
Qed.

(** C6.  In a consistent file system and for a cache root without a
    [..] component: when the root exists, [_init_cache_dir] changes
    nothing; when it does not exist and its parent is a directory, the
    call creates the root and exactly the directories [root/l1/.../lk]
    with [1 <= k <= cache_depth] and every [li] a two-lowercase-hex-digit
    label, and writes no file; when the parent is not a directory,
    [mkdir] fails and nothing changes: with [NotADirectoryError] when
    some proper ancestor of the root is a regular file, with
    [FileNotFoundError] otherwise.  In every case a second call returns
    what the first returned and leaves the world of the first call as it
    is. *)
Theorem init_cache_dir_tree (self : @Self Elaboratable) (w : World) :
  fs_wf (w_fs w) ->
  no_dotdot (_cache_root self) = true ->
  (fs_exists (w_fs w) (_cache_root self) = true ->
   _init_cache_dir self w = (Ok tt, w))
  /\ (fs_exists (w_fs w) (_cache_root self) = false ->
      fs_is_dir (w_fs w) (parent (_cache_root self)) = true ->
      exists w',
        _init_cache_dir self w = (Ok tt, w')
        /\ (forall p,
              p ∈ fs_dirs (w_fs w') <->
              p ∈ fs_dirs (w_fs w) \/ p = _cache_root self
              \/ in_shard_tree (_cache_root self) (_cache_depth self) p)
        /\ fs_files (w_fs w') = fs_files (w_fs w))
  /\ (fs_exists (w_fs w) (_cache_root self) = false ->
      fs_is_dir (w_fs w) (parent (_cache_root self)) = false ->
      _init_cache_dir self w =
      (Raise (if existsb (fs_is_file (w_fs w)) (ancestors (_cache_root self))
              then NotADirectoryError (_cache_root self)
              else FileNotFoundError (_cache_root self)), w))
  /\ (forall r1 w1,
        _init_cache_dir self w = (r1, w1) ->
        _init_cache_dir self w1 = (r1, w1)).
Proof.
  intros Hwf _. split; [|split; [|split]].
  - intros Hex.
    destruct (init_cache_dir_cases self w)
      as [(_ & E)|[(Hno & _)|(Hno & _)]]; [exact E | congruence | congruence].
  - intros Hex Hpar.
    set (root := _cache_root self) in *.
    assert (Hp : parent root ∈ fs_dirs (w_fs w))
      by (now apply bool_decide_eq_true in Hpar).
    pose proof (mkdir_fresh root w Hex Hp) as Hmk.
    set (w1 := mkWorld (mkFS ({[root]} ∪ fs_dirs (w_fs w)) (fs_files (w_fs w)))
                       (EvMkdir root :: w_trace w) (w_cwd w)) in *.
    destruct (init_dir_fresh (_cache_depth self) root w1)
      as (w' & Hrun & Hd & Hf & _).
    { cbn. now apply elem_of_union_l, elem_of_singleton. }
    { intros ls Hls. apply fs_exists_false. cbn.
      destruct (fs_exists (w_fs w) (root ++ ls)) eqn:Hls_ex.
      - pose proof (fs_wf_prefix _ root ls Hwf Hls Hls_ex) as Hin.
        apply fs_exists_false in Hex as [Hex _]. contradiction.
      - apply fs_exists_false in Hls_ex as [Hnd Hnf]. split; [|exact Hnf].
        intros Hin. apply elem_of_union in Hin as [Hin|Hin]; [|contradiction].
        apply elem_of_singleton in Hin.
        rewrite <- (app_nil_r root) in Hin at 2.
        apply app_inv_head in Hin. contradiction. }
    exists w'. split; [|split].
    + unfold _init_cache_dir. fold root.
      erewrite bind_ok; [|unfold path_exists; rewrite Hex; reflexivity].
      cbv beta iota. erewrite bind_ok; [|exact Hmk].
      erewrite bind_ok; [|reflexivity]. exact Hrun.
    + intros p. rewrite Hd. cbn.
      rewrite elem_of_union, elem_of_union, elem_of_singleton, shard_tree_elem.
      tauto.
    + rewrite Hf. reflexivity.
  - intros Hex Hpar. rewrite <- (no_parent_error_wf _ _ Hwf).
    destruct (init_cache_dir_cases self w)
      as [(Hyes & _)|[(_ & _ & E)|(_ & Hyes & _)]];
      [congruence | exact E | congruence].
  - intros r1 w1. apply init_cache_dir_again.
Qed.

End Tree.

(** ** The attribute lookups on a platform without the attributes *)

Section Attributes.

Context {Elaboratable : Type}.
Variable lzma_compress : list Byte.byte -> list Byte.byte.
Variable lzma_flush : list Byte.byte -> list Byte.byte.

(** [_get_cache_dir] initialises the tree first and fails afterwards. *)
Lemma get_cache_dir_no_attr (self : @Self Elaboratable) digest w :
  host_attrs (host self) !! "tree_depth" = None ->
  _get_cache_dir self digest w =
  match _init_cache_dir self w with
  | (Ok _, w') => (Raise (AttributeError "tree_depth"), w')
  | (Raise e, w') => (Raise e, w')
  end.
Proof.
  intros H. unfold _get_cache_dir, cache_root, bind, getattr.
  destruct (_init_cache_dir self w) as [[[]|e] w']; cbn; [|reflexivity].
  now rewrite H.
Qed.

(** C3, amended.  On an instance whose classes define neither
    [cache_dir] nor [tree_depth]: [_get_from_cache] and [_store_to_cache]
    raise [AttributeError] for [cache_dir] and leave the world as it
    was; [_get_cache_dir] first runs [_init_cache_dir] (the [cache_root]
    property), keeps the world that call leaves, and then raises: the
    [AttributeError] for [tree_depth] when the initialisation
    succeeded, the error of the initialisation otherwise.  None of the
    three returns a value, and none changes the files. *)
Theorem attribute_errors (self : @Self Elaboratable) digest prod name w :
  host_attrs (host self) !! "cache_dir" = None ->
  host_attrs (host self) !! "tree_depth" = None ->
  _get_from_cache self digest w = (Raise (AttributeError "cache_dir"), w)
  /\ _store_to_cache lzma_compress lzma_flush self digest prod name w =
     (Raise (AttributeError "cache_dir"), w)
  /\ exists e w',
       _get_cache_dir self digest w = (Raise e, w')
       /\ (exists r,
             _init_cache_dir self w = (r, w')
             /\ (r = Ok tt -> e = AttributeError "tree_depth")
             /\ (forall e', r = Raise e' -> e = e'))
       /\ fs_files (w_fs w') = fs_files (w_fs w).
Proof.
  intros Hdir Hdepth.
  split; [now apply get_from_cache_no_attr|].
  split; [now apply store_to_cache_no_attr|].
  rewrite (get_cache_dir_no_attr self digest w Hdepth).
  destruct (_init_cache_dir self w) as [[[]|e] w'] eqn:E.
  - exists (AttributeError "tree_depth"), w'.
    split; [reflexivity|]. split.
    + exists (Ok tt). split; [reflexivity|]. split; [reflexivity|]. discriminate.
    + apply (init_cache_dir_grows self w _ _ E).
  - exists e, w'. split; [reflexivity|]. split.
    + exists (Raise e). split; [reflexivity|]. split; [discriminate|].
      now intros e' [= ->].
    + apply (init_cache_dir_grows self w _ _ E).
Qed.

End Attributes.

(** ** Concrete runs *)

Lemma ex_fs_wf : fs_wf ex_fs.
Proof.
  split; [|split].
  - cbn. set_solver.
  - cbn. intros p Hp. apply elem_of_union in Hp as [Hp|Hp];
      apply elem_of_singleton in Hp; subst p; cbn; set_solver.
  - intros p Hp. unfold fs_is_file in Hp. cbn in Hp.
    rewrite lookup_empty in Hp. discriminate.
Qed.

(** [ex_self] is the instance [__init__] builds in [ex_world]. *)
Lemma init_builds_ex_self : __init__ ex_host ex_world = (Ok ex_self, ex_world).
Proof. reflexivity. Qed.

Lemma attribute_errors_witness :
  host_attrs (host ex_self) !! "cache_dir" = None
  /\ host_attrs (host ex_self) !! "tree_depth" = None
  /\ _get_from_cache ex_self ex_digest ex_world =
     (Raise (AttributeError "cache_dir"), ex_world)
  /\ _store_to_cache ex_lzma ex_lzma ex_self ex_digest (mkProducts "build")
       "top" ex_world =
     (Raise (AttributeError "cache_dir"), ex_world).
Proof.
  split; [reflexivity|]. split; [reflexivity|].
  destruct (attribute_errors ex_lzma ex_lzma ex_self ex_digest
              (mkProducts "build") "top" ex_world)
    as (H1 & H2 & _); [reflexivity | reflexivity |].
  split; [exact H1 | exact H2].
Defined.

(** C3 as stated fails for [_get_cache_dir]: on the default instance in
    a working directory without a cache, the call creates the cache
    root before it raises. *)
Lemma get_cache_dir_touches_fs :
  (exists w',
     _get_cache_dir ex_self ex_digest ex_world =
     (Raise (AttributeError "tree_depth"), w')
     /\ ["work"; ".torii_cache"] ∈ fs_dirs (w_fs w')
     /\ ["work"; ".torii_cache"] ∉ fs_dirs (w_fs ex_world))
  /\ ~ raises_attribute_error_untouched
         (_get_cache_dir ex_self ex_digest) ex_world.
Proof.
  assert (Hout : ["work"; ".torii_cache"] ∉ fs_dirs (w_fs ex_world)).
  { cbn. rewrite elem_of_union, !elem_of_singleton. intros [H|H]; discriminate. }
  pose proof (get_cache_dir_no_attr ex_self ex_digest ex_world eq_refl) as Hrun.
  destruct (init_cache_dir_cases ex_self ex_world)
    as [(Hyes & _)|[(_ & Hno & _)|(_ & _ & w' & E & _ & Hin)]].
  - vm_compute in Hyes. discriminate.
  - vm_compute in Hno. discriminate.
  - rewrite E in Hrun. split.
    + exists w'. split; [exact Hrun|]. split; [exact Hin | exact Hout].
    + intros [attr Habs]. rewrite Hrun in Habs.
      injection Habs as _ ->. apply Hout, Hin.
Qed.

(** C1 on the default instance.  The artifact set holds [top.bin], yet
    [_store_to_cache] raises [AttributeError] for [cache_dir] before it
    writes anything, so neither the store nor a store followed by a
    lookup yields a hit. *)
Theorem store_then_lookup_attribute_error :
  products_get (mkProducts "build") "top.bin" ex_world_built =
    (Ok [Byte.x7f; Byte.x42; Byte.x49; Byte.x54], ex_world_built)
  /\ _store_to_cache ex_lzma ex_lzma ex_self ex_digest (mkProducts "build")
       "top" ex_world_built =
     (Raise (AttributeError "cache_dir"), ex_world_built)
  /\ (_store_to_cache ex_lzma ex_lzma ex_self ex_digest (mkProducts "build")
        "top" ;;
      _get_from_cache ex_self ex_digest) ex_world_built =
     (Raise (AttributeError "cache_dir"), ex_world_built).
Proof.
  split; [vm_compute; reflexivity|].
  split; [apply store_to_cache_no_attr; reflexivity|].
  apply bind_raise. apply store_to_cache_no_attr. reflexivity.
Qed.

(** C2 on the default instance.  Nothing was ever stored, yet the
    lookup raises [AttributeError] for [cache_dir] where the claim has
    it return a miss. *)
Theorem lookup_never_stored_attribute_error :
  fs_files (w_fs ex_world) = ∅
  /\ _get_from_cache ex_self ex_digest ex_world =
     (Raise (AttributeError "cache_dir"), ex_world).
Proof.
  split; [reflexivity|]. apply get_from_cache_no_attr. reflexivity.
Qed.

(** C4 on the default instance, the cache root being there already:
    [_get_cache_dir] raises [AttributeError] for [tree_depth] and
    returns no path. *)
Theorem get_cache_dir_attribute_error :
  _get_cache_dir ex_self ex_digest ex_world_rooted =
  (Raise (AttributeError "tree_depth"), ex_world_rooted).
Proof.
  rewrite (get_cache_dir_no_attr ex_self ex_digest ex_world_rooted eq_refl).
  destruct (init_cache_dir_cases ex_self ex_world_rooted)
    as [(_ & E)|[(Hno & _)|(Hno & _)]].
  - now rewrite E.
  - vm_compute in Hno. discriminate.
  - vm_compute in Hno. discriminate.
Qed.

(** C8 on the default instance.  With [skip_cache] set the build still
    looks the digest up first; the lookup raises [AttributeError] for
    [cache_dir], and the trace holds the elaboration only: the executor
    was not invoked. *)
Theorem build_skip_cache_attribute_error :
  _build_elaboratable ex_lzma ex_lzma ex_self tt "top" "build" true None false
    {[ "skip_cache" := VBool true ]} ex_world =
  (Raise (AttributeError "cache_dir"),
   mkWorld ex_fs [EvElaborate "top" "build"] ["work"]).
Proof.
  unfold _build_elaboratable.
  erewrite bind_ok; [|reflexivity].
  cbn [negb]. apply bind_raise.
  apply get_from_cache_no_attr. reflexivity.
Qed.

Lemma init_cache_dir_tree_witness :
  fs_wf (w_fs ex_world)
  /\ no_dotdot (_cache_root ex_self) = true
  /\ exists w',
       _init_cache_dir ex_self ex_world = (Ok tt, w')
       /\ ["work"; ".torii_cache"; "ab"] ∈ fs_dirs (w_fs w')
       /\ _init_cache_dir ex_self w' = (Ok tt, w').
Proof.
  split; [exact ex_fs_wf|]. split; [reflexivity|].
  destruct (init_cache_dir_tree ex_self ex_world ex_fs_wf eq_refl)
    as (_ & Hfresh & _ & Hagain).
  destruct Hfresh as (w' & Hrun & Hdirs & _);
    [vm_compute; reflexivity | vm_compute; reflexivity |].
  exists w'. split; [exact Hrun|]. split; [|exact (Hagain _ _ Hrun)].
  apply Hdirs. right. right. exists ["ab"].
  split; [reflexivity|]. split; [cbn; lia|]. split; [cbn; lia|].
  constructor; [reflexivity | constructor].
Defined.

Lemma build_cache_hit_witness :
  truthy (default (VBool false) ((∅ : gmap string PyVal) !! "skip_cache")) = false
  /\ _get_from_cache (ex_self_dir ex_plan) ex_digest
       (mkWorld ex_fs_cached [EvElaborate "top" "build"] ["work"]) =
     (Ok (Some ex_entry),
      mkWorld ex_fs_cached [EvElaborate "top" "build"] ["work"])
  /\ _build_elaboratable ex_lzma ex_lzma (ex_self_dir ex_plan) tt "top" "build"
       true None false ∅ ex_world_cached =
     (Ok (ex_digest +:+ ".bin", OutProducts (mkProducts "/work/cache")),
      mkWorld ex_fs_cached [EvElaborate "top" "build"] ["work"]).
Proof.
  assert (Hhit :
    _get_from_cache (ex_self_dir ex_plan) ex_digest
      (mkWorld ex_fs_cached [EvElaborate "top" "build"] ["work"]) =
    (Ok (Some ex_entry),
     mkWorld ex_fs_cached [EvElaborate "top" "build"] ["work"])).
  { vm_compute. reflexivity. }
  split; [reflexivity|]. split; [exact Hhit|].
  destruct (build_cache_hit ex_lzma ex_lzma (ex_self_dir ex_plan) tt "top"
              "build" None false ∅ ex_world_cached ex_plan ex_fs_cached
              ex_entry
              (mkWorld ex_fs_cached [EvElaborate "top" "build"] ["work"]))
    as [H _];
    [reflexivity | reflexivity | exact Hhit | exact H].
Defined.

Lemma build_execute_failure_witness :
  _get_from_cache (ex_self_dir ex_plan_failing) ex_digest
    (mkWorld ex_fs_empty_cache [EvElaborate "top" "build"] ["work"]) =
    (Ok None, mkWorld ex_fs_empty_cache [EvElaborate "top" "build"] ["work"])
  /\ plan_execute_local ex_plan_failing "build" ex_fs_empty_cache =
     (Raise (ExternalError "toolchain failed"), ex_fs_empty_cache)
  /\ _build_elaboratable ex_lzma ex_lzma (ex_self_dir ex_plan_failing) tt "top"
       "build" true None false ∅ ex_world_empty_cache =
     (Raise (ExternalError "toolchain failed"),
      mkWorld ex_fs_empty_cache
              [EvExecute "build"; EvElaborate "top" "build"] ["work"]).
Proof.
  assert (Hmiss :
    _get_from_cache (ex_self_dir ex_plan_failing) ex_digest
      (mkWorld ex_fs_empty_cache [EvElaborate "top" "build"] ["work"]) =
    (Ok None, mkWorld ex_fs_empty_cache [EvElaborate "top" "build"] ["work"])).
  { vm_compute. reflexivity. }
  split; [exact Hmiss|]. split; [reflexivity|].
  apply (build_execute_failure ex_lzma ex_lzma (ex_self_dir ex_plan_failing) tt
           "top" "build" None false ∅ ex_world_empty_cache ex_plan_failing
           ex_fs_empty_cache None
           (mkWorld ex_fs_empty_cache [EvElaborate "top" "build"] ["work"])
           (ExternalError "toolchain failed") ex_fs_empty_cache);
    [reflexivity | exact Hmiss | left; reflexivity | reflexivity].
Defined.

(** * Further properties of the build orchestrator *)

Lemma bind_ok_inv {A B} (c : M A) (k : A -> M B) w b w' :
  bind c k w = (Ok b, w') ->
  exists a w1, c w = (Ok a, w1) /\ k a w1 = (Ok b, w').
Proof.
  unfold bind. destruct (c w) as [[a|e] w1]; [|discriminate].
  intros H. now exists a, w1.
Qed.

Lemma pair_fst_eta {A B} (x : A * B) (a : A) : fst x = a -> x = (a, snd x).
Proof. destruct x as [a' b]. cbn. now intros ->. Qed.

(** A run known to return is the pair of its result and its world. *)
Lemma run_ok_eta {A} (c : M A) w (a : A) :
  fst (c w) = Ok a -> c w = (Ok a, snd (c w)).
Proof. apply pair_fst_eta. Qed.

Section Orchestrator.

Context {Elaboratable : Type}.
Variable lzma_compress : list Byte.byte -> list Byte.byte.
Variable lzma_flush : list Byte.byte -> list Byte.byte.

(** X1.  With [do_build] false, [build] returns the input name and the
    plan as soon as the elaboration has returned it: no attribute of
    the cache is read, so this holds on every instance, the lookup, the
    executor and the store are not reached, and the file system is as
    the elaboration left it. *)
Theorem build_without_do_build (self : @Self Elaboratable) elaboratable
    name build_dir program_opts do_program kwargs w plan f1 :
  host_build (host self) elaboratable name build_dir false program_opts
             false kwargs (w_fs w) = (Ok plan, f1) ->
  build lzma_compress lzma_flush self elaboratable name build_dir false
        program_opts do_program kwargs w =
  (Ok (name, OutPlan plan),
   mkWorld f1 (EvElaborate name build_dir :: w_trace w) (w_cwd w)).
Proof.
  intros Hplan. unfold build, _build_elaboratable.
  erewrite bind_ok; [|unfold super_build; now rewrite Hplan].
  reflexivity.
Qed.

(** X2.  When the elaboration fails, [build] fails with the same error
    whatever [do_build] and [skip_cache] are; the trace holds the
    elaboration only. *)
Theorem build_elaboration_failure (self : @Self Elaboratable) elaboratable
    name build_dir do_build program_opts do_program kwargs w e f1 :
  host_build (host self) elaboratable name build_dir false program_opts
             false kwargs (w_fs w) = (Raise e, f1) ->
  build lzma_compress lzma_flush self elaboratable name build_dir do_build
        program_opts do_program kwargs w =
  (Raise e, mkWorld f1 (EvElaborate name build_dir :: w_trace w) (w_cwd w)).
Proof.
  intros Hplan. unfold build, _build_elaboratable.
  apply bind_raise. unfold super_build. now rewrite Hplan.
Qed.

(** X3.  On a miss without [skip_cache], a store that fails makes the
    whole build fail with the error of the store, although the executor
    has run and returned its products. *)
Theorem build_store_failure (self : @Self Elaboratable) elaboratable
    name build_dir program_opts do_program kwargs w plan f1 w2 prod f3 e w4 :
  truthy (default (VBool false) (kwargs !! "skip_cache")) = false ->
  host_build (host self) elaboratable name build_dir false program_opts
             false kwargs (w_fs w) = (Ok plan, f1) ->
  _get_from_cache self (bytes_hex (plan_digest plan 32))
    (mkWorld f1 (EvElaborate name build_dir :: w_trace w) (w_cwd w)) =
    (Ok None, w2) ->
  plan_execute_local plan build_dir f1 = (Ok prod, f3) ->
  _store_to_cache lzma_compress lzma_flush self
    (bytes_hex (plan_digest plan 32)) prod name
    (mkWorld f3 (EvExecute build_dir :: EvElaborate name build_dir :: w_trace w)
             (w_cwd w)) = (Raise e, w4) ->
  build lzma_compress lzma_flush self elaboratable name build_dir true
        program_opts do_program kwargs w = (Raise e, w4).
Proof.
  intros Hskip Hplan Hlook Hexec Hstore.
  pose proof (get_from_cache_readonly _ _ _ _ _ Hlook) as ->.
  unfold build, _build_elaboratable.
  erewrite bind_ok; [|unfold super_build; now rewrite Hplan].
  cbn [negb]. erewrite bind_ok; [|exact Hlook].
  cbv beta iota.
  erewrite bind_ok; [|unfold execute_local; cbn; now rewrite Hexec].
  rewrite Hskip. cbn [negb]. now apply bind_raise.
Qed.

(** On a miss without [skip_cache], when the executor and the store
    both return, [build] returns the input name with the fresh
    products, in the world the store left. *)
Lemma build_miss_run (self : @Self Elaboratable)
    elaboratable name build_dir program_opts do_program kwargs w plan f1 w2
    prod f3 w4 :
  truthy (default (VBool false) (kwargs !! "skip_cache")) = false ->
  host_build (host self) elaboratable name build_dir false program_opts
             false kwargs (w_fs w) = (Ok plan, f1) ->
  _get_from_cache self (bytes_hex (plan_digest plan 32))
    (mkWorld f1 (EvElaborate name build_dir :: w_trace w) (w_cwd w)) =
    (Ok None, w2) ->
  plan_execute_local plan build_dir f1 = (Ok prod, f3) ->
  _store_to_cache lzma_compress lzma_flush self
    (bytes_hex (plan_digest plan 32)) prod name
    (mkWorld f3 (EvExecute build_dir :: EvElaborate name build_dir :: w_trace w)
             (w_cwd w)) = (Ok tt, w4) ->
  build lzma_compress lzma_flush self elaboratable name build_dir true
        program_opts do_program kwargs w = (Ok (name, OutProducts prod), w4).
Proof.
  intros Hskip Hplan Hlook Hexec Hstore.
  pose proof (get_from_cache_readonly _ _ _ _ _ Hlook) as ->.
  unfold build, _build_elaboratable.
  erewrite bind_ok; [|unfold super_build; now rewrite Hplan].
  cbn [negb]. erewrite bind_ok; [|exact Hlook].
  cbv beta iota.
  erewrite bind_ok; [|unfold execute_local; cbn; now rewrite Hexec].
  rewrite Hskip. cbn [negb]. erewrite bind_ok; [|exact Hstore].
  reflexivity.
Qed.

(** X4.  A lookup leaves the world as it found it, whatever it returns
    or raises. *)
Theorem lookup_leaves_world (self : @Self Elaboratable) digest w :
  snd (_get_from_cache self digest w) = w.
Proof.
  destruct (_get_from_cache self digest w) as [r w'] eqn:E.
  exact (get_from_cache_readonly _ _ _ _ _ E).
Qed.

End Orchestrator.

(** * Rules for outcomes *)

Lemma triple_bind {A B} (P : World -> Prop) (c : M A) (k : A -> M B)
    (Q : A -> World -> Prop) (R : B -> World -> Prop) (E : World -> Prop) :
  triple P c Q E ->
  (forall a, triple (Q a) (k a) R E) ->
  triple P (bind c k) R E.
Proof.
  intros Hc Hk w r w' HP Hrun. unfold bind in Hrun.
  destruct (c w) as [[a|e] w1] eqn:Ec.
  - exact (Hk a w1 r w' (Hc w (Ok a) w1 HP Ec) Hrun).
  - injection Hrun as <- <-. exact (Hc w (Raise e) w1 HP Ec).
Qed.

Lemma triple_ret {A} (P : World -> Prop) (a : A) (E : World -> Prop) :
  triple P (ret a) (fun _ => P) E.
Proof. intros w r w' HP [= <- <-]. exact HP. Qed.

Lemma triple_weaken {A} (P P' : World -> Prop) (c : M A)
    (Q Q' : A -> World -> Prop) (E E' : World -> Prop) :
  triple P c Q E ->
  (forall w, P' w -> P w) ->
  (forall a w, Q a w -> Q' a w) ->
  (forall w, E w -> E' w) ->
  triple P' c Q' E'.
Proof.
  intros H HP HQ HE w r w' HP' Hrun.
  specialize (H w r w' (HP w HP') Hrun).
  destruct r; [now apply HQ | now apply HE].
Qed.

(** A computation that never changes the world keeps every property. *)
Lemma triple_readonly {A} (P : World -> Prop) (c : M A) :
  (forall w, snd (c w) = w) ->
  triple P c (fun _ => P) P.
Proof.
  intros Hro w r w' HP Hrun. specialize (Hro w). rewrite Hrun in Hro.
  cbn in Hro. subst w'. now destruct r.
Qed.

Lemma triple_for_each {A} (I : World -> Prop) (l : list A) (body : A -> M unit) :
  (forall x, triple I (body x) (fun _ => I) I) ->
  triple I (for_each l body) (fun _ => I) I.
Proof.
  intros Hbody. induction l as [|x l IH].
  - apply triple_ret.
  - cbn [for_each]. eapply triple_bind; [apply Hbody|]. intros a. exact IH.
Qed.

Lemma products_get_readonly prod filename w :
  snd (products_get prod filename w) = w.
Proof. unfold products_get. now destruct (_ !! _). Qed.

Lemma truediv_readonly v seg w : snd (truediv v seg w) = w.
Proof. now destruct v. Qed.

Lemma path_exists_readonly p w : snd (path_exists p w) = w.
Proof. reflexivity. Qed.

(** * Names and paths *)

Lemma split_on_no_slash s :
  no_slash s = true -> split_on "/"%char s = [s].
Proof.
  induction s as [|c s IH]; [reflexivity|]. cbn.
  intros H. apply andb_prop in H as [Hc Hs].
  apply negb_true_iff in Hc. rewrite Hc, (IH Hs). reflexivity.
Qed.

Lemma path_div_comp (p : Path) c :
  comp_ok c = true -> path_div p c = p ++ [c].
Proof.
  unfold comp_ok. intros H.
  apply andb_prop in H as [H Hdot]. apply andb_prop in H as [Hns Hne].
  unfold path_div, path_parts.
  rewrite (split_on_no_slash c Hns). cbn [List.filter].
  rewrite Hne, Hdot. cbn [andb].
  destruct c as [|a c]; [reflexivity|].
  cbn in Hns. apply andb_prop in Hns as [Ha _].
  apply negb_true_iff in Ha. cbn. now rewrite Ha.
Qed.

Lemma str_app_cons c s t : String c s +:+ t = String c (s +:+ t).
Proof. reflexivity. Qed.

Lemma no_slash_app s t : no_slash (s +:+ t) = no_slash s && no_slash t.
Proof.
  induction s as [|c s IH]; [reflexivity|].
  rewrite str_app_cons. cbn [no_slash]. rewrite IH. now rewrite andb_assoc.
Qed.

Lemma str_length_app s t :
  String.length (s +:+ t) = (String.length s + String.length t)%nat.
Proof.
  induction s as [|c s IH]; [reflexivity|].
  rewrite str_app_cons. cbn [String.length]. now rewrite IH.
Qed.

Lemma long_not_empty_dot s :
  (2 <= String.length s)%nat ->
  String.eqb s EmptyString = false /\ String.eqb s "." = false.
Proof.
  destruct s as [|a [|b s]]; cbn; try lia. intros _.
  split; [reflexivity|]. now destruct (Ascii.eqb a "."%char).
Qed.

Lemma comp_ok_suffix d sfx :
  no_slash d = true -> no_slash sfx = true -> (2 <= String.length sfx)%nat ->
  comp_ok (d +:+ sfx) = true.
Proof.
  intros Hd Hs Hlen. unfold comp_ok.
  rewrite no_slash_app, Hd, Hs.
  destruct (long_not_empty_dot (d +:+ sfx)) as [-> ->];
    [rewrite str_length_app; lia | reflexivity].
Qed.

Lemma str_app_inj_l (d s t : string) : d +:+ s = d +:+ t -> s = t.
Proof.
  induction d as [|c d IH]; [easy|].
  rewrite !str_app_cons. intros [= H]. now apply IH.
Qed.

(** The two files of an entry are different files. *)
Lemma bitstream_rtl_distinct (p : Path) digest :
  no_slash digest = true ->
  bitstream_file p digest = p ++ [digest +:+ ".bin"]
  /\ rtl_file p digest = p ++ [digest +:+ ".debug.v.xz"]
  /\ bitstream_file p digest <> rtl_file p digest.
Proof.
  intros Hd. unfold bitstream_file, rtl_file.
  rewrite !path_div_comp
    by (apply comp_ok_suffix; [exact Hd | reflexivity | cbn; lia]).
  split; [reflexivity|]. split; [reflexivity|].
  intros H. apply app_inv_head in H. injection H as H.
  apply str_app_inj_l in H. discriminate.
Qed.

Lemma str_append_nil_r s : s +:+ EmptyString = s.
Proof.
  induction s as [|c s IH]; [reflexivity|]. now rewrite str_app_cons, IH.
Qed.

Lemma split_on_cons sep s : exists h t, split_on sep s = h :: t.
Proof.
  destruct s as [|c s]; [now exists EmptyString, []|]. cbn [split_on].
  destruct (Ascii.eqb c sep); [now eexists _, _|].
  destruct (split_on sep s); now eexists _, _.
Qed.

Lemma split_on_prepend c rest :
  no_slash c = true ->
  split_on "/"%char (c +:+ rest) =
  match split_on "/"%char rest with
  | h :: t => (c +:+ h) :: t
  | [] => [c]
  end.
Proof.
  induction c as [|a c IH]; intros H.
  - destruct (split_on_cons "/"%char rest) as (h & t & E).
    change (EmptyString +:+ rest) with rest. rewrite E. reflexivity.
  - cbn [no_slash] in H. apply andb_prop in H as [Ha Hc].
    apply negb_true_iff in Ha. rewrite str_app_cons. cbn [split_on].
    rewrite Ha, (IH Hc).
    destruct (split_on_cons "/"%char rest) as (h & t & E). rewrite E.
    now rewrite str_app_cons.
Qed.

Lemma split_on_str_concat (p : Path) :
  Forall (fun c => comp_ok c = true) p ->
  split_on "/"%char (str_concat (map (fun c => "/" +:+ c) p)) = EmptyString :: p.
Proof.
  induction 1 as [|c p Hc Hp IH]; [reflexivity|].
  cbn [map str_concat fold_right].
  change (("/" +:+ c) +:+ fold_right String.append EmptyString
                            (map (fun c0 => "/" +:+ c0) p))
    with (String "/"%char
            (c +:+ str_concat (map (fun c0 => "/" +:+ c0) p))).
  cbn [split_on].
  change (Ascii.eqb "/"%char "/"%char) with true. cbv iota.
  unfold comp_ok in Hc. apply andb_prop in Hc as [Hc _].
  apply andb_prop in Hc as [Hns _].
  rewrite (split_on_prepend c _ Hns), IH.
  now rewrite str_append_nil_r.
Qed.

Lemma filter_comp_ok (p : Path) :
  Forall (fun c => comp_ok c = true) p ->
  List.filter (fun c => negb (String.eqb c EmptyString) && negb (String.eqb c "."))
              p = p.
Proof.
  induction 1 as [|x l Hx Hl IH]; [reflexivity|].
  cbn [List.filter]. unfold comp_ok in Hx.
  apply andb_prop in Hx as [Hx Hdot]. apply andb_prop in Hx as [_ Hne].
  rewrite Hne, Hdot. cbn [andb]. f_equal. exact IH.
Qed.

(** A path in normal form reads back from its string. *)
Lemma path_of_str_of_path (cwd p : Path) :
  Forall (fun c => comp_ok c = true) p ->
  path_div cwd (str_of_path p) = p.
Proof.
  intros Hp. destruct p as [|c p]; [reflexivity|].
  unfold path_div, str_of_path.
  assert (Habs : is_absolute (str_concat (map (fun c0 => "/" +:+ c0) (c :: p))) = true)
    by reflexivity.
  rewrite Habs. unfold path_parts. rewrite (split_on_str_concat _ Hp).
  exact (filter_comp_ok (c :: p) Hp).
Qed.

(** * Further properties of the cache store *)

Lemma open_wb_ok p w :
  p ∉ fs_dirs (w_fs w) ->
  parent p ∈ fs_dirs (w_fs w) ->
  open_wb p w =
  (Ok tt, mkWorld (mkFS (fs_dirs (w_fs w)) (<[p := []]> (fs_files (w_fs w))))
                  (EvOpenW p :: w_trace w) (w_cwd w)).
Proof.
  intros Hnd Hpar. unfold open_wb, fs_is_dir. cbn.
  now rewrite bool_decide_eq_false_2, bool_decide_eq_true_2.
Qed.

Lemma products_get_ok prod filename w data :
  fs_files (w_fs w) !! artifact_file w prod filename = Some data ->
  products_get prod filename w = (Ok data, w).
Proof. unfold products_get, artifact_file. now intros ->. Qed.


Section StoreEffects.

Context {Elaboratable : Type}.
Variable lzma_compress : list Byte.byte -> list Byte.byte.
Variable lzma_flush : list Byte.byte -> list Byte.byte.

(** The run of a store with [cache_rtl] on, step by step. *)
Lemma store_both_files_run (self : @Self Elaboratable) digest prod name
    w p bits src :
  host_attrs (host self) !! "cache_dir" = Some (VPath p) ->
  _cache_rtl self = true ->
  bitstream_file p digest ∉ fs_dirs (w_fs w) ->
  parent (bitstream_file p digest) ∈ fs_dirs (w_fs w) ->
  rtl_file p digest ∉ fs_dirs (w_fs w) ->
  parent (rtl_file p digest) ∈ fs_dirs (w_fs w) ->
  fs_files (w_fs w) !! artifact_file w prod (name +:+ ".bin") = Some bits ->
  fs_files (w_fs w) !! artifact_file w prod (name +:+ ".debug.v") = Some src ->
  artifact_file w prod (name +:+ ".bin") <> bitstream_file p digest ->
  artifact_file w prod (name +:+ ".debug.v") <> bitstream_file p digest ->
  artifact_file w prod (name +:+ ".debug.v") <> rtl_file p digest ->
  _store_to_cache lzma_compress lzma_flush self digest prod name w =
  (Ok tt,
   mkWorld
     (mkFS (fs_dirs (w_fs w))
           (<[rtl_file p digest := lzma_compress src ++ lzma_flush src]>
              (<[bitstream_file p digest := bits]> (fs_files (w_fs w)))))
     (EvWrite (rtl_file p digest) (lzma_flush src)
      :: EvWrite (rtl_file p digest) (lzma_compress src)
      :: EvOpenW (rtl_file p digest)
      :: EvWrite (bitstream_file p digest) bits
      :: EvOpenW (bitstream_file p digest) :: w_trace w)
     (w_cwd w)).
Proof.
  intros Hattr Hrtl Hbd Hbp Hrd Hrp Ha1 Ha2 Hn1 Hn2 Hn3.
  unfold _store_to_cache, getattr. rewrite Hattr.
  erewrite bind_ok; [|reflexivity].
  erewrite bind_ok; [|reflexivity].
  fold (bitstream_file p digest).
  erewrite bind_ok; [|now apply open_wb_ok].
  erewrite bind_ok.
  2:{ apply products_get_ok. unfold artifact_file in *. cbn.
      rewrite lookup_insert_ne by congruence. exact Ha1. }
  erewrite bind_ok; [|reflexivity].
  erewrite bind_ok; [|reflexivity].
  unfold cache_rtl, ret at 1. rewrite Hrtl. cbv beta iota.
  erewrite bind_ok; [|reflexivity].
  erewrite bind_ok; [|reflexivity].
  fold (rtl_file p digest).
  erewrite bind_ok; [|now apply open_wb_ok].
  erewrite bind_ok.
  2:{ apply products_get_ok. unfold artifact_file in *. cbn.
      rewrite !lookup_insert_ne by congruence. exact Ha2. }
  erewrite bind_ok; [|reflexivity].
  unfold file_write. cbn.
  rewrite !lookup_insert_eq. cbn.
  rewrite !insert_insert_eq. reflexivity.
Qed.



Lemma open_wb_inv p w a w' :
  open_wb p w = (Ok a, w') ->
  w' = mkWorld (mkFS (fs_dirs (w_fs w)) (<[p := []]> (fs_files (w_fs w))))
               (EvOpenW p :: w_trace w) (w_cwd w).
Proof.
  unfold open_wb. cbn.
  destruct (fs_is_dir (w_fs w) p); [discriminate|].
  destruct (fs_is_dir (w_fs w) (parent p)); [|discriminate].
  now intros [= _ <-].
Qed.

Lemma products_get_inv prod filename w data w' :
  products_get prod filename w = (Ok data, w') ->
  w' = w /\ fs_files (w_fs w) !! artifact_file w prod filename = Some data.
Proof.
  unfold products_get, artifact_file.
  destruct (_ !! _) as [d|]; [|discriminate].
  now intros [= <- <-].
Qed.

(** What a store that returns has done, in full. *)
Lemma store_ok_inv (self : @Self Elaboratable) digest prod name w w' :
  _store_to_cache lzma_compress lzma_flush self digest prod name w = (Ok tt, w') ->
  exists p bits,
    host_attrs (host self) !! "cache_dir" = Some (VPath p)
    /\ <[bitstream_file p digest := []]> (fs_files (w_fs w))
         !! artifact_file w prod (name +:+ ".bin") = Some bits
    /\ fs_dirs (w_fs w') = fs_dirs (w_fs w)
    /\ w_cwd w' = w_cwd w
    /\ ((_cache_rtl self = false
         /\ fs_files (w_fs w') =
            <[bitstream_file p digest := bits]> (fs_files (w_fs w)))
        \/ (_cache_rtl self = true
            /\ exists src,
                 fs_files (w_fs w') =
                 <[rtl_file p digest := lzma_compress src ++ lzma_flush src]>
                   (<[bitstream_file p digest := bits]> (fs_files (w_fs w))))).
Proof.
  intros H. unfold _store_to_cache, getattr in H.
  destruct (host_attrs (host self) !! "cache_dir") as [[| | | |p]|] eqn:Hattr;
    try discriminate H.
  fold (bitstream_file p digest) (rtl_file p digest) in H.
  apply bind_ok_inv in H as (v & w0 & [= <- <-] & H).
  apply bind_ok_inv in H as (bf & w0 & [= <- <-] & H).
  apply bind_ok_inv in H as ([] & w1 & Hopen & H).
  apply open_wb_inv in Hopen. subst w1.
  apply bind_ok_inv in H as (bits & w2 & Hget & H).
  apply products_get_inv in Hget as [-> Hget].
  apply bind_ok_inv in H as ([] & w3 & [= <-] & H).
  apply bind_ok_inv in H as (rtl_on & w4 & [= <- <-] & H).
  exists p, bits. split; [reflexivity|]. split; [exact Hget|].
  cbn in H. rewrite lookup_insert_eq in H. cbn in H.
  rewrite insert_insert_eq in H.
  destruct (_cache_rtl self).
  - apply bind_ok_inv in H as (v & w0 & [= <- <-] & H).
    apply bind_ok_inv in H as (rf & w0 & [= <- <-] & H).
    apply bind_ok_inv in H as ([] & w1 & Hopen & H).
    apply open_wb_inv in Hopen. subst w1.
    apply bind_ok_inv in H as (src & w2 & Hget2 & H).
    apply products_get_inv in Hget2 as [-> Hget2].
    apply bind_ok_inv in H as ([] & w3 & [= <-] & H).
    injection H as <-. cbn.
    split; [reflexivity|]. split; [reflexivity|].
    right. split; [reflexivity|]. exists src.
    rewrite !lookup_insert_eq. cbn. now rewrite !insert_insert_eq.
  - injection H as <-. cbn.
    split; [reflexivity|]. split; [reflexivity|].
    left. split; reflexivity.
Qed.

Lemma store_ok_is_file (self : @Self Elaboratable) digest prod name w w' :
  _store_to_cache lzma_compress lzma_flush self digest prod name w = (Ok tt, w') ->
  exists p,
    host_attrs (host self) !! "cache_dir" = Some (VPath p)
    /\ fs_is_file (w_fs w') (bitstream_file p digest) = true.
Proof.
  intros H.
  destruct (store_ok_inv _ _ _ _ _ _ H)
    as (p & bits & Hattr & _ & _ & _ & Hfiles).
  exists p. split; [exact Hattr|]. unfold fs_is_file.
  destruct Hfiles as [(_ & ->)|(_ & src & ->)].
  - now rewrite lookup_insert_eq.
  - rewrite lookup_insert. case_decide; [reflexivity|].
    now rewrite lookup_insert_eq.
Qed.

Lemma lookup_hit_of_file (self : @Self Elaboratable) digest w p :
  host_attrs (host self) !! "cache_dir" = Some (VPath p) ->
  fs_is_file (w_fs w) (bitstream_file p digest) = true ->
  _get_from_cache self digest w =
  (Ok (Some {| ce_name := digest +:+ ".bin";
               ce_products := mkProducts (str_of_path p) |}), w).
Proof.
  intros Hattr Hfile. rewrite get_from_cache_cases, Hattr.
  fold (bitstream_file p digest). unfold fs_exists.
  rewrite Hfile. now rewrite orb_true_r.
Qed.

(** X5.  The layout a store leaves.  Conditions: [cache_rtl] is on; a
    class supplies [cache_dir] as a path, which is an existing
    directory; the digest has no [/]; neither
    [<cache_dir>/<digest>.bin] nor [<cache_dir>/<digest>.debug.v.xz] is
    a directory; the artifacts [<name>.bin] and [<name>.debug.v] are
    regular files; [<name>.bin] is not the cache's [.bin] file and
    [<name>.debug.v] is neither of the two cache files; [cache_dir] and
    the two artifact paths have no [..] component.  Then the store
    returns, [<cache_dir>/<digest>.bin] holds the bytes of [<name>.bin],
    [<cache_dir>/<digest>.debug.v.xz] holds the compressed bytes of
    [<name>.debug.v] followed by the flush of the compressor, and every
    other file and every directory is as before. *)
Theorem store_writes_both_files (self : @Self Elaboratable) digest prod name
    w p bits src :
  host_attrs (host self) !! "cache_dir" = Some (VPath p) ->
  _cache_rtl self = true ->
  no_slash digest = true ->
  no_dotdot p = true ->
  no_dotdot (artifact_file w prod (name +:+ ".bin")) = true ->
  no_dotdot (artifact_file w prod (name +:+ ".debug.v")) = true ->
  p ∈ fs_dirs (w_fs w) ->
  p ++ [digest +:+ ".bin"] ∉ fs_dirs (w_fs w) ->
  p ++ [digest +:+ ".debug.v.xz"] ∉ fs_dirs (w_fs w) ->
  fs_files (w_fs w) !! artifact_file w prod (name +:+ ".bin") = Some bits ->
  fs_files (w_fs w) !! artifact_file w prod (name +:+ ".debug.v") = Some src ->
  artifact_file w prod (name +:+ ".bin") <> p ++ [digest +:+ ".bin"] ->
  artifact_file w prod (name +:+ ".debug.v") <> p ++ [digest +:+ ".bin"] ->
  artifact_file w prod (name +:+ ".debug.v") <> p ++ [digest +:+ ".debug.v.xz"] ->
  exists w',
    _store_to_cache lzma_compress lzma_flush self digest prod name w = (Ok tt, w')
    /\ fs_files (w_fs w') !! (p ++ [digest +:+ ".bin"]) = Some bits
    /\ fs_files (w_fs w') !! (p ++ [digest +:+ ".debug.v.xz"]) =
       Some (lzma_compress src ++ lzma_flush src)
    /\ (forall q,
          q <> p ++ [digest +:+ ".bin"] ->
          q <> p ++ [digest +:+ ".debug.v.xz"] ->
          fs_files (w_fs w') !! q = fs_files (w_fs w) !! q)
    /\ fs_dirs (w_fs w') = fs_dirs (w_fs w).
Proof.
  intros Hattr Hrtl Hd _ _ _ Hp Hbd Hrd Ha1 Ha2 Hn1 Hn2 Hn3.
  destruct (bitstream_rtl_distinct p digest Hd) as (Eb & Er & Hdist).
  rewrite <- Eb, <- Er in *.
  eexists. split.
  - apply (store_both_files_run self digest prod name w p bits src);
      try assumption.
    + rewrite Eb. now rewrite parent_snoc.
    + rewrite Er. now rewrite parent_snoc.
  - cbn. split; [|split; [|split]].
    + rewrite lookup_insert_ne by congruence. now rewrite lookup_insert_eq.
    + now rewrite lookup_insert_eq.
    + intros q Hq1 Hq2. now rewrite !lookup_insert_ne by congruence.
    + reflexivity.
Qed.

(** X8.  A store that returns is found: a lookup of the same digest in
    the world the store left reports a hit named [<digest>.bin]. *)
Theorem store_ok_then_lookup_hits (self : @Self Elaboratable) digest prod
    name w w' :
  _store_to_cache lzma_compress lzma_flush self digest prod name w = (Ok tt, w') ->
  exists entry,
    _get_from_cache self digest w' = (Ok (Some entry), w')
    /\ ce_name entry = digest +:+ ".bin".
Proof.
  intros H.
  destruct (store_ok_is_file _ _ _ _ _ _ H) as (p & Hattr & Hfile).
  eexists. split; [exact (lookup_hit_of_file self digest w' p Hattr Hfile)|].
  reflexivity.
Qed.

(** X9.  Round trip, for a digest without [/] and a [cache_dir] in
    normal form: after a store that returns, the entry a lookup finds
    yields, under its own name, the bytes the artifact set held under
    [<name>.bin]. *)
Theorem store_lookup_round_trip (self : @Self Elaboratable) digest prod name
    w w' p bits :
  _store_to_cache lzma_compress lzma_flush self digest prod name w = (Ok tt, w') ->
  host_attrs (host self) !! "cache_dir" = Some (VPath p) ->
  Forall (fun c => comp_ok c = true) p ->
  no_slash digest = true ->
  fs_files (w_fs w) !! artifact_file w prod (name +:+ ".bin") = Some bits ->
  artifact_file w prod (name +:+ ".bin") <> bitstream_file p digest ->
  exists entry,
    _get_from_cache self digest w' = (Ok (Some entry), w')
    /\ products_get (ce_products entry) (ce_name entry) w' = (Ok bits, w').
Proof.
  intros H Hattr Hp Hd Hbits Hne.
  destruct (store_ok_is_file _ _ _ _ _ _ H) as (p0 & Hattr0 & Hfile).
  rewrite Hattr in Hattr0. injection Hattr0 as <-.
  eexists. split; [exact (lookup_hit_of_file self digest w' p Hattr Hfile)|].
  destruct (store_ok_inv _ _ _ _ _ _ H)
    as (p' & bits' & Hattr' & Hget & _ & Hcwd & Hfiles).
  rewrite Hattr in Hattr'. injection Hattr' as <-.
  rewrite lookup_insert_ne in Hget by congruence.
  rewrite Hbits in Hget. injection Hget as <-.
  cbn [ce_name ce_products].
  apply products_get_ok. unfold artifact_file. cbn [lbp_root].
  rewrite (path_of_str_of_path _ p Hp). fold (bitstream_file p digest).
  destruct (bitstream_rtl_distinct p digest Hd) as (_ & _ & Hdist).
  destruct Hfiles as [(_ & ->)|(_ & src & ->)].
  - now rewrite lookup_insert_eq.
  - rewrite lookup_insert_ne by congruence. now rewrite lookup_insert_eq.
Qed.

End StoreEffects.

Section StoreAgain.

Context {Elaboratable : Type}.
Variable lzma_compress : list Byte.byte -> list Byte.byte.
Variable lzma_flush : list Byte.byte -> list Byte.byte.

Lemma open_wb_inv_dirs p w a w' :
  open_wb p w = (Ok a, w') ->
  (p ∉ fs_dirs (w_fs w)) /\ parent p ∈ fs_dirs (w_fs w).
Proof.
  unfold open_wb, fs_is_dir. cbn.
  destruct (bool_decide (p ∈ fs_dirs (w_fs w))) eqn:Hd; [discriminate|].
  destruct (bool_decide (parent p ∈ fs_dirs (w_fs w))) eqn:Hp; [|discriminate].
  intros _. split.
  - now apply bool_decide_eq_false in Hd.
  - now apply bool_decide_eq_true in Hp.
Qed.

(** The run of a store with [cache_rtl] off, step by step. *)
Lemma store_primary_file_run (self : @Self Elaboratable) digest prod name
    w p bits :
  host_attrs (host self) !! "cache_dir" = Some (VPath p) ->
  _cache_rtl self = false ->
  bitstream_file p digest ∉ fs_dirs (w_fs w) ->
  parent (bitstream_file p digest) ∈ fs_dirs (w_fs w) ->
  fs_files (w_fs w) !! artifact_file w prod (name +:+ ".bin") = Some bits ->
  artifact_file w prod (name +:+ ".bin") <> bitstream_file p digest ->
  _store_to_cache lzma_compress lzma_flush self digest prod name w =
  (Ok tt,
   mkWorld
     (mkFS (fs_dirs (w_fs w))
           (<[bitstream_file p digest := bits]> (fs_files (w_fs w))))
     (EvWrite (bitstream_file p digest) bits
      :: EvOpenW (bitstream_file p digest) :: w_trace w)
     (w_cwd w)).
Proof.
  intros Hattr Hrtl Hbd Hbp Ha1 Hn1.
  unfold _store_to_cache, getattr. rewrite Hattr.
  erewrite bind_ok; [|reflexivity].
  erewrite bind_ok; [|reflexivity].
  fold (bitstream_file p digest).
  erewrite bind_ok; [|now apply open_wb_ok].
  erewrite bind_ok.
  2:{ apply products_get_ok. unfold artifact_file in *. cbn.
      rewrite lookup_insert_ne by congruence. exact Ha1. }
  erewrite bind_ok; [|reflexivity].
  erewrite bind_ok; [|reflexivity].
  unfold cache_rtl, ret at 1. rewrite Hrtl. cbv beta iota.
  unfold ret. cbn. rewrite lookup_insert_eq. cbn.
  rewrite insert_insert_eq. reflexivity.
Qed.

(** What a store that returns found when it started, and what it left. *)
Lemma store_ok_pre (self : @Self Elaboratable) digest prod name w w' p :
  host_attrs (host self) !! "cache_dir" = Some (VPath p) ->
  _store_to_cache lzma_compress lzma_flush self digest prod name w = (Ok tt, w') ->
  (bitstream_file p digest ∉ fs_dirs (w_fs w))
  /\ parent (bitstream_file p digest) ∈ fs_dirs (w_fs w)
  /\ fs_dirs (w_fs w') = fs_dirs (w_fs w)
  /\ w_cwd w' = w_cwd w
  /\ exists bits,
       <[bitstream_file p digest := []]> (fs_files (w_fs w))
         !! artifact_file w prod (name +:+ ".bin") = Some bits
       /\ ((_cache_rtl self = false
            /\ fs_files (w_fs w') =
               <[bitstream_file p digest := bits]> (fs_files (w_fs w)))
           \/ (_cache_rtl self = true
               /\ (rtl_file p digest ∉ fs_dirs (w_fs w))
               /\ parent (rtl_file p digest) ∈ fs_dirs (w_fs w)
               /\ exists src,
                    <[rtl_file p digest := []]>
                      (<[bitstream_file p digest := bits]> (fs_files (w_fs w)))
                      !! artifact_file w prod (name +:+ ".debug.v") = Some src
                    /\ fs_files (w_fs w') =
                       <[rtl_file p digest := lzma_compress src ++ lzma_flush src]>
                         (<[bitstream_file p digest := bits]> (fs_files (w_fs w))))).
Proof.
  intros Hattr H. unfold _store_to_cache, getattr in H. rewrite Hattr in H.
  fold (bitstream_file p digest) (rtl_file p digest) in H.
  apply bind_ok_inv in H as (v & w0 & [= <- <-] & H).
  apply bind_ok_inv in H as (bf & w0 & [= <- <-] & H).
  apply bind_ok_inv in H as ([] & w1 & Hopen & H).
  destruct (open_wb_inv_dirs _ _ _ _ Hopen) as [Hbd Hbp].
  apply open_wb_inv in Hopen. subst w1.
  apply bind_ok_inv in H as (bits & w2 & Hget & H).
  apply products_get_inv in Hget as [-> Hget].
  apply bind_ok_inv in H as ([] & w3 & [= <-] & H).
  apply bind_ok_inv in H as (rtl_on & w4 & [= <- <-] & H).
  cbn in H. rewrite lookup_insert_eq in H. cbn in H.
  rewrite insert_insert_eq in H.
  split; [exact Hbd|]. split; [exact Hbp|].
  destruct (_cache_rtl self).
  - apply bind_ok_inv in H as (v & w0 & [= <- <-] & H).
    apply bind_ok_inv in H as (rf & w0 & [= <- <-] & H).
    apply bind_ok_inv in H as ([] & w1 & Hopen & H).
    destruct (open_wb_inv_dirs _ _ _ _ Hopen) as [Hrd Hrp].
    apply open_wb_inv in Hopen. subst w1.
    apply bind_ok_inv in H as (src & w2 & Hget2 & H).
    apply products_get_inv in Hget2 as [-> Hget2].
    apply bind_ok_inv in H as ([] & w3 & [= <-] & H).
    injection H as <-. cbn.
    split; [reflexivity|]. split; [reflexivity|].
    exists bits. split; [exact Hget|].
    right. split; [reflexivity|]. split; [exact Hrd|]. split; [exact Hrp|].
    exists src. split; [exact Hget2|].
    rewrite !lookup_insert_eq. cbn. now rewrite !insert_insert_eq.
  - injection H as <-. cbn.
    split; [reflexivity|]. split; [reflexivity|].
    exists bits. split; [exact Hget|].
    left. split; reflexivity.
Qed.

(** X10.  For a [cache_dir] and artifact paths without [..]
    components: when a store returns, the primary artifact is not the
    cache's [.bin] file and, with [cache_rtl] on, neither artifact is
    one of the two cache files, then storing the same artifacts under
    the same digest again also returns and leaves the file system as
    the first store left it.  Both settings of [cache_rtl] are covered. *)
Theorem store_twice_same_files (self : @Self Elaboratable) digest prod name
    w w' p :
  host_attrs (host self) !! "cache_dir" = Some (VPath p) ->
  no_dotdot p = true ->
  no_dotdot (artifact_file w prod (name +:+ ".bin")) = true ->
  _store_to_cache lzma_compress lzma_flush self digest prod name w = (Ok tt, w') ->
  artifact_file w prod (name +:+ ".bin") <> bitstream_file p digest ->
  (_cache_rtl self = true ->
   no_dotdot (artifact_file w prod (name +:+ ".debug.v")) = true
   /\ artifact_file w prod (name +:+ ".bin") <> rtl_file p digest
   /\ artifact_file w prod (name +:+ ".debug.v") <> bitstream_file p digest
   /\ artifact_file w prod (name +:+ ".debug.v") <> rtl_file p digest) ->
  exists w'',
    _store_to_cache lzma_compress lzma_flush self digest prod name w' = (Ok tt, w'')
    /\ w_fs w'' = w_fs w'.
Proof.
  intros Hattr _ _ Hrun Hn1 Hrtl.
  destruct (store_ok_pre self digest prod name w w' p Hattr Hrun)
    as (Hbd & Hbp & Hdirs & Hcwd & bits & Ha1 & Hcase).
  rewrite lookup_insert_ne in Ha1 by congruence.
  assert (Hart : forall fname, artifact_file w' prod fname = artifact_file w prod fname)
    by (intros fname; unfold artifact_file; now rewrite Hcwd).
  destruct Hcase as [(Hoff & Hfiles)|(Hon & Hrd & Hrp & src & Ha2 & Hfiles)].
  - eexists. split.
    + apply (store_primary_file_run self digest prod name w' p bits);
        rewrite ?Hdirs, ?Hart, ?Hfiles; try assumption.
      rewrite lookup_insert_ne by congruence. exact Ha1.
    + destruct (w_fs w') as [d f]. cbn in *. subst d f. f_equal.
      apply insert_insert_eq.
  - destruct (Hrtl Hon) as (_ & Hn1' & Hn2 & Hn3).
    rewrite !lookup_insert_ne in Ha2 by congruence.
    eexists. split.
    + apply (store_both_files_run _ _ self digest prod name w' p bits src);
        rewrite ?Hdirs, ?Hart, ?Hfiles; try assumption;
        rewrite !lookup_insert_ne by congruence; assumption.
    + destruct (w_fs w') as [d f]. cbn in *. subst d f. f_equal.
      apply map_eq. intros k.
      rewrite !lookup_insert. repeat case_decide; try reflexivity; congruence.
Qed.

(** X11.  A build that misses, executes and stores, followed by a
    second build of the same design (the elaboration returns the same
    plan and leaves the file system alone): the first returns the input
    name with the fresh products; the second returns the cached entry
    under the name [<digest>.bin], and its trace gains the elaboration
    only, so the executor is not invoked again. *)
Theorem build_then_rebuild_hits (self : @Self Elaboratable) elaboratable
    name build_dir program_opts do_program kwargs w plan f1 w2 prod f3 w4 :
  truthy (default (VBool false) (kwargs !! "skip_cache")) = false ->
  host_build (host self) elaboratable name build_dir false program_opts
             false kwargs (w_fs w) = (Ok plan, f1) ->
  _get_from_cache self (bytes_hex (plan_digest plan 32))
    (mkWorld f1 (EvElaborate name build_dir :: w_trace w) (w_cwd w)) =
    (Ok None, w2) ->
  plan_execute_local plan build_dir f1 = (Ok prod, f3) ->
  _store_to_cache lzma_compress lzma_flush self
    (bytes_hex (plan_digest plan 32)) prod name
    (mkWorld f3 (EvExecute build_dir :: EvElaborate name build_dir :: w_trace w)
             (w_cwd w)) = (Ok tt, w4) ->
  host_build (host self) elaboratable name build_dir false program_opts
             false kwargs (w_fs w4) = (Ok plan, w_fs w4) ->
  build lzma_compress lzma_flush self elaboratable name build_dir true
        program_opts do_program kwargs w = (Ok (name, OutProducts prod), w4)
  /\ exists entry,
       build lzma_compress lzma_flush self elaboratable name build_dir true
             program_opts do_program kwargs w4 =
       (Ok (ce_name entry, OutProducts (ce_products entry)),
        mkWorld (w_fs w4) (EvElaborate name build_dir :: w_trace w4) (w_cwd w4))
       /\ ce_name entry = bytes_hex (plan_digest plan 32) +:+ ".bin".
Proof.
  intros Hskip Hplan Hmiss Hexec Hstore Hplan2.
  split.
  - exact (build_miss_run _ _ self elaboratable name build_dir program_opts
             do_program kwargs w plan f1 w2 prod f3 w4
             Hskip Hplan Hmiss Hexec Hstore).
  - destruct (store_ok_is_file _ _ _ _ _ _ _ _ Hstore) as (p & Hattr & Hfile).
    exists {| ce_name := bytes_hex (plan_digest plan 32) +:+ ".bin";
              ce_products := mkProducts (str_of_path p) |}.
    split; [|reflexivity].
    unfold build, _build_elaboratable.
    erewrite bind_ok; [|unfold super_build; now rewrite Hplan2].
    cbn [negb]. erewrite bind_ok.
    2:{ apply (lookup_hit_of_file self _ _ p Hattr). exact Hfile. }
    cbv beta iota. now rewrite Hskip.
Qed.

End StoreAgain.

(** * Invariants *)

Lemma triple_readonly_to {A} (P E : World -> Prop) (c : M A) :
  (forall w, snd (c w) = w) ->
  (forall w, P w -> E w) ->
  triple P c (fun _ => P) E.
Proof.
  intros Hro HE w r w' HP Hrun. specialize (Hro w). rewrite Hrun in Hro.
  cbn in Hro. subst w'. destruct r; [exact HP | now apply HE].
Qed.

Lemma mkdir_wf p :
  triple (fun w => fs_wf (w_fs w)) (mkdir p)
         (fun _ w => fs_wf (w_fs w)) (fun w => fs_wf (w_fs w)).
Proof.
  intros w r w' Hwf Hrun. unfold mkdir in Hrun. cbn in Hrun.
  destruct (fs_exists (w_fs w) p) eqn:Hex; [now injection Hrun as <- <-|].
  destruct (fs_is_dir (w_fs w) (parent p)) eqn:Hpar;
    [|now injection Hrun as <- <-].
  injection Hrun as <- <-. cbn.
  destruct Hwf as (Hroot & Hdir & Hfile).
  apply bool_decide_eq_true in Hpar.
  apply fs_exists_false in Hex as [Hnd Hnf].
  split; [|split]; cbn.
  - now apply elem_of_union_r.
  - intros q Hq. apply elem_of_union_r.
    apply elem_of_union in Hq as [Hq|Hq]; [|now apply Hdir].
    apply elem_of_singleton in Hq. now subst q.
  - intros q Hq. unfold fs_is_file in Hq. cbn in Hq.
    destruct (Hfile q Hq) as [Hqp Hqn]. split; [now apply elem_of_union_r|].
    intros Hin. apply elem_of_union in Hin as [Hin|Hin]; [|contradiction].
    apply elem_of_singleton in Hin. subst q.
    unfold fs_is_file in Hq. rewrite Hnf in Hq. discriminate.
Qed.

Lemma init_dir_wf depth :
  forall root,
    triple (fun w => fs_wf (w_fs w)) (_init_dir depth root)
           (fun _ w => fs_wf (w_fs w)) (fun w => fs_wf (w_fs w)).
Proof.
  induction depth as [|d IH]; intros root.
  - apply triple_ret.
  - cbn [_init_dir]. apply triple_for_each. intros i. cbv zeta.
    eapply triple_bind.
    + apply (triple_readonly _ _ (path_exists_readonly _)).
    + intros ex. destruct ex; cbn [negb]; [apply triple_ret|].
      eapply triple_bind; [apply mkdir_wf|]. intros u. apply IH.
Qed.

Lemma open_wb_wf p :
  triple (fun w => fs_wf (w_fs w)) (open_wb p)
         (fun _ w => fs_wf (w_fs w) /\ fs_is_file (w_fs w) p = true)
         (fun w => fs_wf (w_fs w)).
Proof.
  intros w r w' Hwf Hrun. unfold open_wb in Hrun. cbn in Hrun.
  destruct (fs_is_dir (w_fs w) p) eqn:Hd; [now injection Hrun as <- <-|].
  destruct (fs_is_dir (w_fs w) (parent p)) eqn:Hpar;
    [|now injection Hrun as <- <-].
  injection Hrun as <- <-. cbn.
  destruct Hwf as (Hroot & Hdir & Hfile).
  apply bool_decide_eq_true in Hpar. apply bool_decide_eq_false in Hd.
  split; [|unfold fs_is_file; cbn; now rewrite lookup_insert_eq].
  split; [|split]; cbn; [exact Hroot | exact Hdir |].
  intros q Hq. unfold fs_is_file in Hq. cbn in Hq.
  rewrite lookup_insert in Hq. case_decide; [now subst q|].
  now apply Hfile.
Qed.

Lemma file_write_wf p data (E : World -> Prop) :
  triple (fun w => fs_wf (w_fs w) /\ fs_is_file (w_fs w) p = true)
         (file_write p data)
         (fun _ w => fs_wf (w_fs w) /\ fs_is_file (w_fs w) p = true) E.
Proof.
  intros w r w' [Hwf Hp] Hrun. unfold file_write in Hrun.
  injection Hrun as <- <-. cbn.
  destruct Hwf as (Hroot & Hdir & Hfile).
  split; [|unfold fs_is_file; cbn; now rewrite lookup_insert_eq].
  split; [|split]; cbn; [exact Hroot | exact Hdir |].
  intros q Hq. unfold fs_is_file in Hq. cbn in Hq.
  rewrite lookup_insert in Hq. case_decide; [subst q|]; now apply Hfile.
Qed.



Section Invariants.

Context {Elaboratable : Type}.
Variable lzma_compress : list Byte.byte -> list Byte.byte.
Variable lzma_flush : list Byte.byte -> list Byte.byte.

(** X12.  [_init_cache_dir] keeps the file system consistent, whether
    it returns or raises. *)
Theorem init_cache_dir_keeps_wf (self : @Self Elaboratable) w r w' :
  fs_wf (w_fs w) ->
  _init_cache_dir self w = (r, w') ->
  fs_wf (w_fs w').
Proof.
  intros Hwf Hrun.
  assert (T : triple (fun w => fs_wf (w_fs w)) (_init_cache_dir self)
                     (fun _ w => fs_wf (w_fs w)) (fun w => fs_wf (w_fs w))).
  { unfold _init_cache_dir. eapply triple_bind.
    - apply (triple_readonly _ _ (path_exists_readonly _)).
    - intros ex. destruct ex; [apply triple_ret|].
      eapply triple_bind; [apply mkdir_wf|]. intros u.
      eapply triple_bind; [apply triple_ret|]. intros depth. cbv beta.
      apply init_dir_wf. }
  specialize (T w r w' Hwf Hrun). now destruct r.
Qed.

(** X13.  [_init_cache_dir] only ever adds directories: whatever its
    outcome, every directory is still there, the files and their
    contents are the same, and the working directory is the same. *)
Theorem init_cache_dir_only_adds_dirs (self : @Self Elaboratable) w :
  fs_dirs (w_fs w) ⊆ fs_dirs (w_fs (snd (_init_cache_dir self w)))
  /\ fs_files (w_fs (snd (_init_cache_dir self w))) = fs_files (w_fs w)
  /\ w_cwd (snd (_init_cache_dir self w)) = w_cwd w.
Proof.
  destruct (_init_cache_dir self w) as [r w'] eqn:E.
  exact (init_cache_dir_grows self w r w' E).
Qed.

(** X14.  [_store_to_cache] keeps the file system consistent, whether
    it returns or raises. *)
Theorem store_to_cache_keeps_wf (self : @Self Elaboratable) digest prod name
    w r w' :
  fs_wf (w_fs w) ->
  _store_to_cache lzma_compress lzma_flush self digest prod name w = (r, w') ->
  fs_wf (w_fs w').
Proof.
  intros Hwf Hrun.
  assert (T : triple (fun w => fs_wf (w_fs w))
                     (_store_to_cache lzma_compress lzma_flush self digest
                                      prod name)
                     (fun _ w => fs_wf (w_fs w)) (fun w => fs_wf (w_fs w))).
  { unfold _store_to_cache, getattr.
    destruct (host_attrs (host self) !! "cache_dir") as [v|];
      [|intros w0 r0 w0' H0 [= <- <-]; exact H0].
    eapply triple_bind; [apply triple_ret|]. intros v0. cbv beta.
    eapply triple_bind;
      [apply (triple_readonly _ _ (truediv_readonly _ _))|]. intros bf.
    eapply triple_bind; [apply open_wb_wf|]. intros u1.
    eapply triple_bind.
    { apply (triple_readonly_to _ (fun w => fs_wf (w_fs w)) _
               (products_get_readonly _ _)). now intros w0 [H0 _]. }
    intros bits. cbv beta.
    eapply triple_bind; [apply file_write_wf|]. intros u2.
    eapply triple_bind.
    { apply (triple_readonly_to _ (fun w => fs_wf (w_fs w)) (cache_rtl self)).
      - reflexivity.
      - now intros w0 [H0 _]. }
    intros rtl_on. cbv beta. destruct rtl_on.
    - eapply triple_bind.
      { eapply triple_weaken;
          [apply (triple_ret (fun w => fs_wf (w_fs w)) v
                             (fun w => fs_wf (w_fs w)))
          | now intros w0 [H0 _]
          | intros a w0 H0; exact H0
          | auto]. }
      intros v1. cbv beta.
      eapply triple_bind;
        [apply (triple_readonly _ _ (truediv_readonly _ _))|]. intros rf.
      eapply triple_bind; [apply open_wb_wf|]. intros u3.
      eapply triple_bind.
      { apply (triple_readonly_to _ (fun w => fs_wf (w_fs w)) _
                 (products_get_readonly _ _)). now intros w0 [H0 _]. }
      intros src. cbv beta.
      eapply triple_bind; [apply file_write_wf|]. intros u4.
      eapply triple_weaken;
        [apply (file_write_wf _ _ (fun w => fs_wf (w_fs w))) | auto | | auto].
      now intros a w0 [H0 _].
    - intros w0 r0 w0' [H0 _] [= <- <-]. exact H0. }
  specialize (T w r w' Hwf Hrun). now destruct r.
Qed.



End Invariants.

(** * Digests and shard paths *)

Lemma byte_hex_two x :
  exists a b,
    fmt_02x (N.to_nat (Byte.to_N x)) = String a (String b EmptyString)
    /\ is_hex_char a = true /\ is_hex_char b = true.
Proof.
  assert (Hlt : (N.to_nat (Byte.to_N x) < 256)%nat).
  { pose proof (Byte.to_N_bounded x). lia. }
  destruct (fmt_02x_facts _ Hlt) as [Hlab _].
  destruct (fmt_02x (N.to_nat (Byte.to_N x))) as [|a [|b [|]]];
    try discriminate Hlab.
  exists a, b. split; [reflexivity|].
  cbn in Hlab. apply andb_prop in Hlab as [Ha Hb].
  unfold is_lower_hex in Ha, Hb. unfold is_hex_char.
  apply orb_true_iff in Ha, Hb.
  split; apply orb_true_iff; left; apply orb_true_iff; tauto.
Qed.

(** X16.  The digest [build] computes, the [hex()] of the digest bytes,
    has two lowercase hexadecimal characters per byte, and
    [_decompose_digest] splits it back into one octet per byte, in
    order. *)
Theorem decompose_bytes_hex (b : list Byte.byte) :
  String.length (bytes_hex b) = (2 * length b)%nat
  /\ is_hex_string (bytes_hex b) = true
  /\ _decompose_digest (bytes_hex b) =
     map (fun x => fmt_02x (N.to_nat (Byte.to_N x))) b.
Proof.
  induction b as [|x b (IHlen & IHhex & IHdec)]; [repeat split|].
  destruct (byte_hex_two x) as (a & c & E & Ha & Hc).
  unfold bytes_hex in *. cbn [map str_concat fold_right]. rewrite E.
  fold (str_concat (map (fun x0 => fmt_02x (N.to_nat (Byte.to_N x0))) b)).
  rewrite !str_app_cons.
  change (EmptyString +:+ ?s) with s.
  split; [|split].
  - cbn [String.length]. unfold str_concat in *. rewrite IHlen. cbn [length]. lia.
  - cbn [is_hex_string]. rewrite Ha, Hc. exact IHhex.
  - rewrite decompose_cons2. unfold str_concat in *. now rewrite IHdec.
Qed.

Lemma hex_char_not_slash c :
  is_hex_char c = true -> Ascii.eqb c "/"%char = false.
Proof.
  destruct c as [[] [] [] [] [] [] [] []]; intros H;
    try discriminate H; reflexivity.
Qed.

Lemma hex_string_no_slash s : is_hex_string s = true -> no_slash s = true.
Proof.
  induction s as [|c s IH]; [reflexivity|]. cbn.
  intros H. apply andb_prop in H as [Hc Hs].
  now rewrite (hex_char_not_slash c Hc), IH.
Qed.

(** The octets of a hexadecimal digest are path components. *)
Lemma decompose_tokens_comp_ok s :
  is_hex_string s = true ->
  Forall (fun t => comp_ok t = true) (_decompose_digest s).
Proof.
  intros H. eapply Forall_impl; [apply (decompose_tokens_hex s H)|].
  intros t [Hlen Hhex]. unfold comp_ok.
  rewrite (hex_string_no_slash t Hhex).
  destruct (long_not_empty_dot t) as [-> ->]; [lia | reflexivity].
Qed.

Lemma joinpath_comp_ok (segs : list string) :
  Forall (fun t => comp_ok t = true) segs ->
  forall root, joinpath root segs = root ++ segs.
Proof.
  unfold joinpath. induction 1 as [|t segs Ht Hs IH]; intros root.
  - cbn. now rewrite app_nil_r.
  - cbn [fold_left]. rewrite (path_div_comp root t Ht), IH.
    now rewrite <- app_assoc.
Qed.

Lemma firstn_decompose_prefix k :
  forall d1 d2,
    (2 * k <= String.length d1)%nat ->
    (2 * k <= String.length d2)%nat ->
    firstn k (_decompose_digest d1) = firstn k (_decompose_digest d2)
    <-> substring 0 (2 * k) d1 = substring 0 (2 * k) d2.
Proof.
  induction k as [|k IH]; intros d1 d2 H1 H2.
  - cbn. split; intros _; [now destruct d1, d2 | reflexivity].
  - destruct d1 as [|a1 [|b1 d1]]; cbn [String.length] in H1; try lia.
    destruct d2 as [|a2 [|b2 d2]]; cbn [String.length] in H2; try lia.
    rewrite !decompose_cons2. cbn [firstn].
    replace (2 * S k)%nat with (S (S (2 * k))) by lia.
    cbn [substring].
    specialize (IH d1 d2 ltac:(lia) ltac:(lia)).
    split.
    + intros [= -> -> Hrest]. apply IH in Hrest. now rewrite Hrest.
    + intros [= -> -> Hrest]. apply IH in Hrest. now rewrite Hrest.
Qed.

Section ShardPath.

Context {Elaboratable : Type}.

(** The run of [_get_cache_dir] when a class supplies [tree_depth]. *)
Lemma get_cache_dir_run (self : @Self Elaboratable) digest w n :
  host_attrs (host self) !! "tree_depth" = Some (VInt n) ->
  (0 <= n)%Z ->
  fs_exists (w_fs w) (_cache_root self) = true ->
  is_hex_string digest = true ->
  _get_cache_dir self digest w =
  (Ok (_cache_root self ++ firstn (Z.to_nat n) (_decompose_digest digest)), w).
Proof.
  intros Hattr Hn Hex Hhex.
  unfold _get_cache_dir, cache_root.
  assert (Hinit : _init_cache_dir self w = (Ok tt, w)).
  { destruct (init_cache_dir_cases self w)
      as [(_ & E)|[(Hno & _)|(Hno & _)]]; [exact E | congruence | congruence]. }
  erewrite bind_ok.
  2:{ erewrite bind_ok; [|exact Hinit]. reflexivity. }
  unfold getattr. rewrite Hattr.
  erewrite bind_ok; [|reflexivity].
  erewrite bind_ok; [|reflexivity].
  unfold ret, list_upto.
  assert (Hle : (0 <=? n)%Z = true) by (apply Z.leb_le; lia).
  rewrite Hle. f_equal. f_equal.
  apply joinpath_comp_ok, Forall_take.
  now apply decompose_tokens_comp_ok.
Qed.

(** X17.  When a class supplies [tree_depth] as a number [n >= 0] and
    the cache root exists, [_get_cache_dir] of a hexadecimal digest
    returns the root followed by the first [n] octets of the digest as
    nested directories, and changes nothing. *)
Theorem get_cache_dir_with_tree_depth (self : @Self Elaboratable) digest w n :
  host_attrs (host self) !! "tree_depth" = Some (VInt n) ->
  (0 <= n)%Z ->
  fs_exists (w_fs w) (_cache_root self) = true ->
  is_hex_string digest = true ->
  exists octets,
    _get_cache_dir self digest w = (Ok (_cache_root self ++ octets), w)
    /\ octets = firstn (Z.to_nat n) (_decompose_digest digest)
    /\ (length octets <= Z.to_nat n)%nat
    /\ Forall (fun t => String.length t = 2%nat /\ is_hex_string t = true) octets.
Proof.
  intros Hattr Hn Hex Hhex.
  exists (firstn (Z.to_nat n) (_decompose_digest digest)).
  split; [now apply get_cache_dir_run|]. split; [reflexivity|].
  split; [apply firstn_le_length|].
  apply Forall_take. now apply decompose_tokens_hex.
Qed.

(** X18.  When a class supplies [tree_depth] as a number [n >= 0] and
    the cache root exists, two hexadecimal digests of at least [2n]
    characters get the same directory from [_get_cache_dir] exactly
    when their first [2n] characters agree. *)
Theorem get_cache_dir_same_shard (self : @Self Elaboratable) d1 d2 w n :
  host_attrs (host self) !! "tree_depth" = Some (VInt n) ->
  (0 <= n)%Z ->
  fs_exists (w_fs w) (_cache_root self) = true ->
  is_hex_string d1 = true ->
  is_hex_string d2 = true ->
  (2 * Z.to_nat n <= String.length d1)%nat ->
  (2 * Z.to_nat n <= String.length d2)%nat ->
  exists p1 p2,
    _get_cache_dir self d1 w = (Ok p1, w)
    /\ _get_cache_dir self d2 w = (Ok p2, w)
    /\ (p1 = p2 <->
        substring 0 (2 * Z.to_nat n) d1 = substring 0 (2 * Z.to_nat n) d2).
Proof.
  intros Hattr Hn Hex H1 H2 L1 L2.
  eexists. eexists.
  split; [now apply (get_cache_dir_run self d1 w n)|].
  split; [now apply (get_cache_dir_run self d2 w n)|].
  rewrite <- (firstn_decompose_prefix (Z.to_nat n) d1 d2 L1 L2).
  split; [apply app_inv_head | now intros ->].
Qed.

End ShardPath.

(** * The size of the tree *)

Lemma shard_node_prefix d (r x : Path) :
  x ∈ ({[r]} ∪ shard_tree d r : gset Path) -> exists ls, x = r ++ ls.
Proof.
  intros H. apply elem_of_union in H as [H|H].
  - apply elem_of_singleton in H. exists []. now rewrite app_nil_r.
  - apply shard_tree_below in H. destruct H as (l & ls & ->). now exists (l :: ls).
Qed.

Lemma shard_level_size (d : nat) (root : Path)
  (IH : forall r, size (shard_tree d r) = tree_size d) :
  forall l,
    NoDup (map fmt_02x l) ->
    size (⋃ (map (fun i => {[root ++ [fmt_02x i]]}
                           ∪ shard_tree d (root ++ [fmt_02x i])) l)
          : gset Path)
    = (length l * (1 + tree_size d))%nat.
Proof.
  induction l as [|i l IHl]; intros Hnd.
  - cbn. apply size_empty.
  - cbn [map] in Hnd. apply NoDup_cons in Hnd as [Hi Hnd].
    cbn [map length]. rewrite union_list_cons, size_union.
    + rewrite (IHl Hnd), size_union.
      * rewrite size_singleton, IH. lia.
      * apply elem_of_disjoint. intros x Hx Hin.
        apply elem_of_singleton in Hx. subst x.
        apply shard_tree_below in Hin. destruct Hin as (l0 & ls & Hin).
        rewrite <- (app_nil_r (root ++ [fmt_02x i])) in Hin at 1.
        apply app_inv_head in Hin. discriminate.
    + apply elem_of_disjoint. intros x Hx Hin.
      apply shard_node_prefix in Hx. destruct Hx as (ls & ->).
      apply elem_of_union_list in Hin. destruct Hin as (X & HX & Hin).
      apply list_elem_of_In, in_map_iff in HX. destruct HX as (j & <- & Hj).
      apply shard_node_prefix in Hin. destruct Hin as (ls' & Hin).
      rewrite <- !app_assoc in Hin. apply app_inv_head in Hin.
      cbn in Hin. injection Hin as Hin _.
      apply Hi. rewrite Hin. apply list_elem_of_In, in_map. exact Hj.
Qed.

Lemma shard_tree_size d : forall root, size (shard_tree d root) = tree_size d.
Proof.
  induction d as [|d IH]; intros root.
  - cbn. apply size_empty.
  - cbn [shard_tree tree_size].
    rewrite (shard_level_size d root IH _ fmt_02x_nodup).
    now rewrite length_seq.
Qed.

Section TreeSize.

Context {Elaboratable : Type}.

(** The directories after an initialisation that starts without root. *)
Lemma init_cache_dir_fresh_run (self : @Self Elaboratable) w :
  fs_wf (w_fs w) ->
  fs_exists (w_fs w) (_cache_root self) = false ->
  fs_is_dir (w_fs w) (parent (_cache_root self)) = true ->
  exists w',
    _init_cache_dir self w = (Ok tt, w')
    /\ fs_dirs (w_fs w') =
       ({[_cache_root self]} ∪ fs_dirs (w_fs w))
       ∪ shard_tree (_cache_depth self) (_cache_root self)
    /\ (forall ls, ls <> [] ->
          fs_exists (w_fs w) (_cache_root self ++ ls) = false).
Proof.
  intros Hwf Hex Hpar.
  set (root := _cache_root self) in *.
  assert (Hp : parent root ∈ fs_dirs (w_fs w))
    by (now apply bool_decide_eq_true in Hpar).
  pose proof (mkdir_fresh root w Hex Hp) as Hmk.
  set (w1 := mkWorld (mkFS ({[root]} ∪ fs_dirs (w_fs w)) (fs_files (w_fs w)))
                     (EvMkdir root :: w_trace w) (w_cwd w)) in *.
  assert (Hfresh : forall ls, ls <> [] ->
                     fs_exists (w_fs w) (root ++ ls) = false).
  { intros ls Hls.
    destruct (fs_exists (w_fs w) (root ++ ls)) eqn:Hls_ex; [|reflexivity].
    pose proof (fs_wf_prefix _ root ls Hwf Hls Hls_ex) as Hin.
    apply fs_exists_false in Hex as [Hex _]. contradiction. }
  destruct (init_dir_fresh (_cache_depth self) root w1)
    as (w' & Hrun & Hd & _ & _).
  { cbn. now apply elem_of_union_l, elem_of_singleton. }
  { intros ls Hls. apply fs_exists_false. cbn.
    specialize (Hfresh ls Hls).
    apply fs_exists_false in Hfresh as [Hnd Hnf]. split; [|exact Hnf].
    intros Hin. apply elem_of_union in Hin as [Hin|Hin]; [|contradiction].
    apply elem_of_singleton in Hin.
    rewrite <- (app_nil_r root) in Hin at 2.
    apply app_inv_head in Hin. contradiction. }
  exists w'. split; [|split; [exact Hd | exact Hfresh]].
  unfold _init_cache_dir. fold root.
  erewrite bind_ok; [|unfold path_exists; rewrite Hex; reflexivity].
  cbv beta iota. erewrite bind_ok; [|exact Hmk].
  erewrite bind_ok; [|reflexivity]. exact Hrun.
Qed.

(** The same run, with the number of directories it leaves. *)
Lemma init_cache_dir_fresh_size (self : @Self Elaboratable) w :
  fs_wf (w_fs w) ->
  fs_exists (w_fs w) (_cache_root self) = false ->
  fs_is_dir (w_fs w) (parent (_cache_root self)) = true ->
  exists w',
    _init_cache_dir self w = (Ok tt, w')
    /\ fs_dirs (w_fs w') =
       ({[_cache_root self]} ∪ fs_dirs (w_fs w))
       ∪ shard_tree (_cache_depth self) (_cache_root self)
    /\ size (fs_dirs (w_fs w')) =
       (size (fs_dirs (w_fs w)) + 1 + tree_size (_cache_depth self))%nat.
Proof.
  intros Hwf Hex Hpar.
  destruct (init_cache_dir_fresh_run self w Hwf Hex Hpar)
    as (w' & Hrun & Hd & Hfresh).
  exists w'. split; [exact Hrun|]. split; [exact Hd|].
  apply fs_exists_false in Hex as [Hnd _].
  rewrite Hd, size_union, size_union, size_singleton, shard_tree_size.
  - lia.
  - apply elem_of_disjoint. intros x Hx Hin.
    apply elem_of_singleton in Hx. now subst x.
  - apply elem_of_disjoint. intros x Hx Hin.
    apply shard_tree_below in Hin. destruct Hin as (l & ls & ->).
    apply elem_of_union in Hx as [Hx|Hx].
    + apply elem_of_singleton in Hx.
      rewrite <- (app_nil_r (_cache_root self)) in Hx at 2.
      apply app_inv_head in Hx. discriminate.
    + specialize (Hfresh (l :: ls) ltac:(discriminate)).
      apply fs_exists_false in Hfresh as [Hno _]. contradiction.
Qed.


End TreeSize.

(** * Checking consistency by computation *)

Lemma fs_wf_b_sound f : fs_wf_b f = true -> fs_wf f.
Proof.
  unfold fs_wf_b. intros H.
  apply andb_prop in H as [H Hfiles]. apply andb_prop in H as [Hroot Hdirs].
  apply bool_decide_eq_true in Hroot.
  rewrite forallb_forall in Hdirs. rewrite forallb_forall in Hfiles.
  split; [exact Hroot|]. split.
  - intros p Hp. apply (bool_decide_eq_true _).
    apply Hdirs, list_elem_of_In, elem_of_elements, Hp.
  - intros p Hp. unfold fs_is_file in Hp.
    destruct (fs_files f !! p) as [data|] eqn:E; [|discriminate].
    assert (Hin : In p (map fst (map_to_list (fs_files f)))).
    { apply in_map_iff. exists (p, data). split; [reflexivity|].
      apply list_elem_of_In, elem_of_map_to_list, E. }
    specialize (Hfiles p Hin). apply andb_prop in Hfiles as [H1 H2].
    apply bool_decide_eq_true in H1. apply negb_true_iff in H2.
    apply bool_decide_eq_false in H2. now split.
Qed.

Section Lookup.

Context {Elaboratable : Type}.
Variable lzma_compress : list Byte.byte -> list Byte.byte.
Variable lzma_flush : list Byte.byte -> list Byte.byte.

(** X22.  First use in a working directory without a cache: the
    instance [__init__] builds has [<cwd>/.torii_cache] as its root,
    and reading its [cache_root] property returns that path after
    making it and its 256 subdirectories [00] .. [ff]; no file is
    written. *)
Theorem first_use_creates_tree (h : @Host Elaboratable) w :
  fs_wf (w_fs w) ->
  w_cwd w ∈ fs_dirs (w_fs w) ->
  fs_exists (w_fs w) (w_cwd w ++ [".torii_cache"]) = false ->
  exists self w',
    __init__ h w = (Ok self, w)
    /\ cache_root self w = (Ok (w_cwd w ++ [".torii_cache"]), w')
    /\ size (fs_dirs (w_fs w')) = (size (fs_dirs (w_fs w)) + 257)%nat
    /\ (forall i, (i < 256)%nat ->
          w_cwd w ++ [".torii_cache"; fmt_02x i] ∈ fs_dirs (w_fs w'))
    /\ fs_files (w_fs w') = fs_files (w_fs w).
Proof.
  intros Hwf Hcwd Hex.
  set (self := {| _cache_root := w_cwd w ++ [".torii_cache"];
                  _cache_depth := 1; _cache_rtl := true; host := h |}).
  assert (Hroot : path_div (w_cwd w) ".torii_cache" = w_cwd w ++ [".torii_cache"])
    by (now apply path_div_comp).
  assert (Hpar : fs_is_dir (w_fs w) (parent (_cache_root self)) = true).
  { cbn. rewrite parent_snoc. unfold fs_is_dir.
    now rewrite bool_decide_eq_true_2. }
  destruct (init_cache_dir_fresh_size self w Hwf Hex Hpar)
    as (w' & Hrun & Hd & Hsize).
  exists self, w'. split; [|split; [|split; [|split]]].
  - unfold __init__, path_cwd, bind, ret. now rewrite Hroot.
  - unfold cache_root. erewrite bind_ok; [|exact Hrun]. reflexivity.
  - rewrite Hsize. cbn. lia.
  - intros i Hi. rewrite Hd. apply elem_of_union_r.
    apply shard_tree_elem. exists [fmt_02x i].
    destruct (fmt_02x_facts i Hi) as [Hlab _].
    split; [cbn; now rewrite <- app_assoc|].
    split; [cbn; lia|]. split; [cbn; lia|]. now constructor.
  - apply (init_cache_dir_grows self w _ _ Hrun).
Qed.

End Lookup.

Section SkipCache.

Context {Elaboratable : Type}.
Variable lzma_compress : list Byte.byte -> list Byte.byte.
Variable lzma_flush : list Byte.byte -> list Byte.byte.

(** X23.  With [skip_cache] set, once the lookup has returned (hit or
    miss), the outcome of [build] is the outcome of the executor: its
    products under the input name, or its error.  The trace holds the
    elaboration and the execution, and the file system is as the
    executor left it: a cached entry is not used and nothing is stored. *)
Theorem build_skip_cache_executes (self : @Self Elaboratable) elaboratable
    name build_dir program_opts do_program kwargs w plan f1 cached w2 r f3 :
  truthy (default (VBool false) (kwargs !! "skip_cache")) = true ->
  host_build (host self) elaboratable name build_dir false program_opts
             false kwargs (w_fs w) = (Ok plan, f1) ->
  _get_from_cache self (bytes_hex (plan_digest plan 32))
    (mkWorld f1 (EvElaborate name build_dir :: w_trace w) (w_cwd w)) =
    (Ok cached, w2) ->
  plan_execute_local plan build_dir f1 = (r, f3) ->
  build lzma_compress lzma_flush self elaboratable name build_dir true
        program_opts do_program kwargs w =
  (match r with
   | Ok prod => Ok (name, OutProducts prod)
   | Raise e => Raise e
   end,
   mkWorld f3 (EvExecute build_dir :: EvElaborate name build_dir :: w_trace w)
           (w_cwd w)).
Proof.
  intros Hskip Hplan Hlook Hexec.
  pose proof (get_from_cache_readonly _ _ _ _ _ Hlook) as ->.
  unfold build, _build_elaboratable.
  erewrite bind_ok; [|unfold super_build; now rewrite Hplan].
  cbn [negb]. erewrite bind_ok; [|exact Hlook].
  rewrite Hskip. cbn [negb].
  assert (Hrun :
    (prod <- execute_local plan build_dir ;;
     ret tt ;; ret (name, OutProducts prod))
      (mkWorld f1 (EvElaborate name build_dir :: w_trace w) (w_cwd w)) =
    (match r with
     | Ok prod => Ok (name, OutProducts prod)
     | Raise e => Raise e
     end,
     mkWorld f3 (EvExecute build_dir :: EvElaborate name build_dir :: w_trace w)
             (w_cwd w))).
  { unfold bind at 1, execute_local. cbn. rewrite Hexec. now destruct r. }
  destruct cached; exact Hrun.
Qed.

End SkipCache.

(** * Concrete runs of the further properties *)

Ltac by_computation :=
  lazymatch goal with
  | |- ?l = ?r => vm_cast_no_check (@eq_refl _ r)
  | |- _ => apply (bool_decide_unpack _); vm_cast_no_check I
  end.

Lemma build_without_do_build_witness :
  host_build (host ex_self) tt "top" "build" false None false ∅ (w_fs ex_world) =
    (Ok ex_plan, ex_fs)
  /\ build ex_lzma ex_lzma ex_self tt "top" "build" false None true ∅ ex_world =
     (Ok ("top", OutPlan ex_plan),
      mkWorld ex_fs [EvElaborate "top" "build"] ["work"]).
Proof.
  split; [reflexivity|].
  apply (build_without_do_build ex_lzma ex_lzma ex_self tt "top" "build" None
           true ∅ ex_world ex_plan ex_fs).
  reflexivity.
Defined.

Lemma build_elaboration_failure_witness :
  host_build (host ex_self_failing) tt "top" "build" false None false ∅
             (w_fs ex_world) =
    (Raise (ExternalError "elaboration failed"), ex_fs)
  /\ build ex_lzma ex_lzma ex_self_failing tt "top" "build" true None false ∅
           ex_world =
     (Raise (ExternalError "elaboration failed"),
      mkWorld ex_fs [EvElaborate "top" "build"] ["work"]).
Proof.
  split; [reflexivity|].
  apply (build_elaboration_failure ex_lzma ex_lzma ex_self_failing tt "top"
           "build" true None false ∅ ex_world _ ex_fs).
  reflexivity.
Defined.

Lemma build_store_failure_witness :
  fst (build ex_lzma ex_lzma (ex_self_dir ex_plan_nodebug) tt "top" "build"
             true None false ∅ ex_world_empty_cache) =
    Raise (MissingArtifact "top.debug.v")
  /\ In (EvExecute "build")
        (w_trace (snd (build ex_lzma ex_lzma (ex_self_dir ex_plan_nodebug) tt
                             "top" "build" true None false ∅
                             ex_world_empty_cache))).
Proof.
  set (f3 := snd (plan_execute_local ex_plan_nodebug "build" ex_fs_empty_cache)).
  set (w3 := mkWorld f3 [EvExecute "build"; EvElaborate "top" "build"] ["work"]).
  set (w4 := snd (_store_to_cache ex_lzma ex_lzma (ex_self_dir ex_plan_nodebug)
                    ex_digest (mkProducts "build") "top" w3)).
  rewrite (build_store_failure ex_lzma ex_lzma (ex_self_dir ex_plan_nodebug) tt
             "top" "build" None false ∅ ex_world_empty_cache ex_plan_nodebug
             ex_fs_empty_cache
             (mkWorld ex_fs_empty_cache [EvElaborate "top" "build"] ["work"])
             (mkProducts "build") f3 (MissingArtifact "top.debug.v") w4);
    [|by_computation..].
  split; [reflexivity | vm_compute; tauto].
Defined.

Lemma store_writes_both_files_witness :
  exists w',
    _store_to_cache ex_lzma ex_lzma (ex_self_dir ex_plan) ex_digest
      (mkProducts "build") "top" ex_world_built_cache = (Ok tt, w')
    /\ fs_files (w_fs w') !! (["work"; "cache"] ++ [ex_digest +:+ ".bin"]) =
       Some [Byte.x7f; Byte.x42; Byte.x49; Byte.x54]
    /\ fs_files (w_fs w') !! (["work"; "cache"] ++ [ex_digest +:+ ".debug.v.xz"]) =
       Some [Byte.x2f; Byte.x2f; Byte.x2f; Byte.x2f].
Proof.
  destruct (store_writes_both_files ex_lzma ex_lzma (ex_self_dir ex_plan)
              ex_digest (mkProducts "build") "top" ex_world_built_cache
              ["work"; "cache"] [Byte.x7f; Byte.x42; Byte.x49; Byte.x54]
              [Byte.x2f; Byte.x2f])
    as (w' & Hrun & Hbin & Hxz & _); [by_computation..|].
  exists w'. split; [exact Hrun|]. split; [exact Hbin | exact Hxz].
Defined.



Lemma store_ok_then_lookup_hits_witness :
  exists w' entry,
    _store_to_cache ex_lzma ex_lzma (ex_self_dir ex_plan) ex_digest
      (mkProducts "build") "top" ex_world_built_cache = (Ok tt, w')
    /\ _get_from_cache (ex_self_dir ex_plan) ex_digest w' = (Ok (Some entry), w')
    /\ ce_name entry = ex_digest +:+ ".bin".
Proof.
  assert (Hfst : fst (_store_to_cache ex_lzma ex_lzma (ex_self_dir ex_plan)
                        ex_digest (mkProducts "build") "top"
                        ex_world_built_cache) = Ok tt)
    by by_computation.
  pose proof (run_ok_eta
                (_store_to_cache ex_lzma ex_lzma (ex_self_dir ex_plan) ex_digest
                   (mkProducts "build") "top")
                ex_world_built_cache tt Hfst) as Hrun.
  clear Hfst. set (w' := snd _) in Hrun.
  destruct (store_ok_then_lookup_hits ex_lzma ex_lzma (ex_self_dir ex_plan)
              ex_digest (mkProducts "build") "top" ex_world_built_cache w' Hrun)
    as (entry & Hhit & Hname).
  exists w', entry. split; [exact Hrun|]. split; [exact Hhit | exact Hname].
Defined.

Lemma store_lookup_round_trip_witness :
  exists w' entry,
    _store_to_cache ex_lzma ex_lzma (ex_self_dir ex_plan) ex_digest
      (mkProducts "build") "top" ex_world_built_cache = (Ok tt, w')
    /\ _get_from_cache (ex_self_dir ex_plan) ex_digest w' = (Ok (Some entry), w')
    /\ products_get (ce_products entry) (ce_name entry) w' =
       (Ok [Byte.x7f; Byte.x42; Byte.x49; Byte.x54], w').
Proof.
  assert (Hfst : fst (_store_to_cache ex_lzma ex_lzma (ex_self_dir ex_plan)
                        ex_digest (mkProducts "build") "top"
                        ex_world_built_cache) = Ok tt)
    by by_computation.
  pose proof (run_ok_eta
                (_store_to_cache ex_lzma ex_lzma (ex_self_dir ex_plan) ex_digest
                   (mkProducts "build") "top")
                ex_world_built_cache tt Hfst) as Hrun.
  clear Hfst. set (w' := snd _) in Hrun.
  destruct (store_lookup_round_trip ex_lzma ex_lzma (ex_self_dir ex_plan)
              ex_digest (mkProducts "build") "top" ex_world_built_cache w'
              ["work"; "cache"] [Byte.x7f; Byte.x42; Byte.x49; Byte.x54] Hrun)
    as (entry & Hhit & Hget);
    [by_computation | repeat constructor | by_computation..|].
  exists w', entry. split; [exact Hrun|]. split; [exact Hhit | exact Hget].
Defined.

Lemma store_twice_same_files_witness :
  exists w' w'',
    _store_to_cache ex_lzma ex_lzma (ex_self_dir ex_plan) ex_digest
      (mkProducts "build") "top" ex_world_built_cache = (Ok tt, w')
    /\ _store_to_cache ex_lzma ex_lzma (ex_self_dir ex_plan) ex_digest
         (mkProducts "build") "top" w' = (Ok tt, w'')
    /\ w_fs w'' = w_fs w'.
Proof.
  assert (Hfst : fst (_store_to_cache ex_lzma ex_lzma (ex_self_dir ex_plan)
                        ex_digest (mkProducts "build") "top"
                        ex_world_built_cache) = Ok tt)
    by by_computation.
  pose proof (run_ok_eta
                (_store_to_cache ex_lzma ex_lzma (ex_self_dir ex_plan) ex_digest
                   (mkProducts "build") "top")
                ex_world_built_cache tt Hfst) as Hrun.
  clear Hfst. set (w' := snd _) in Hrun.
  destruct (store_twice_same_files ex_lzma ex_lzma (ex_self_dir ex_plan)
              ex_digest (mkProducts "build") "top" ex_world_built_cache w'
              ["work"; "cache"])
    as (w'' & Hagain & Hsame);
    [by_computation | by_computation | by_computation | exact Hrun
    | by_computation | |].
  - intros _. repeat split; by_computation.
  - exists w', w''. split; [exact Hrun|]. split; [exact Hagain | exact Hsame].
Defined.

Lemma build_then_rebuild_hits_witness :
  exists w4 entry,
    build ex_lzma ex_lzma (ex_self_dir ex_plan) tt "top" "build" true None
          false ∅ ex_world_empty_cache =
      (Ok ("top", OutProducts (mkProducts "build")), w4)
    /\ build ex_lzma ex_lzma (ex_self_dir ex_plan) tt "top" "build" true None
             false ∅ w4 =
       (Ok (ce_name entry, OutProducts (ce_products entry)),
        mkWorld (w_fs w4) (EvElaborate "top" "build" :: w_trace w4) (w_cwd w4))
    /\ ce_name entry = ex_digest +:+ ".bin".
Proof.
  set (f3 := snd (plan_execute_local ex_plan "build" ex_fs_empty_cache)).
  set (w3 := mkWorld f3 [EvExecute "build"; EvElaborate "top" "build"] ["work"]).
  set (w4 := snd (_store_to_cache ex_lzma ex_lzma (ex_self_dir ex_plan)
                    ex_digest (mkProducts "build") "top" w3)).
  assert (Hexec : plan_execute_local ex_plan "build" ex_fs_empty_cache =
                  (Ok (mkProducts "build"), f3)).
  { assert (Hfst : fst (plan_execute_local ex_plan "build" ex_fs_empty_cache) =
                   Ok (mkProducts "build")) by by_computation.
    exact (pair_fst_eta _ _ Hfst). }
  assert (Hstore : _store_to_cache ex_lzma ex_lzma (ex_self_dir ex_plan)
                     ex_digest (mkProducts "build") "top" w3 = (Ok tt, w4)).
  { assert (Hfst : fst (_store_to_cache ex_lzma ex_lzma (ex_self_dir ex_plan)
                          ex_digest (mkProducts "build") "top" w3) = Ok tt)
      by by_computation.
    exact (pair_fst_eta _ _ Hfst). }
  destruct (build_then_rebuild_hits ex_lzma ex_lzma (ex_self_dir ex_plan) tt
              "top" "build" None false ∅ ex_world_empty_cache ex_plan
              ex_fs_empty_cache
              (mkWorld ex_fs_empty_cache [EvElaborate "top" "build"] ["work"])
              (mkProducts "build") f3 w4)
    as (Hfirst & entry & Hsecond & Hname);
    [by_computation | by_computation | by_computation | exact Hexec
    | exact Hstore | reflexivity |].
  exists w4, entry. split; [exact Hfirst|]. split; [exact Hsecond | exact Hname].
Defined.

Lemma init_cache_dir_keeps_wf_witness :
  fs_wf (w_fs ex_world)
  /\ _init_cache_dir ex_self_flat ex_world =
     (Ok tt, mkWorld (mkFS ({[ ["work"; ".torii_cache"] ]} ∪ fs_dirs ex_fs) ∅)
                     [EvMkdir ["work"; ".torii_cache"]] ["work"])
  /\ fs_wf (mkFS ({[ ["work"; ".torii_cache"] ]} ∪ fs_dirs ex_fs) ∅).
Proof.
  assert (Hrun : _init_cache_dir ex_self_flat ex_world =
                 (Ok tt, mkWorld (mkFS ({[ ["work"; ".torii_cache"] ]}
                                        ∪ fs_dirs ex_fs) ∅)
                                 [EvMkdir ["work"; ".torii_cache"]] ["work"]))
    by by_computation.
  split; [exact ex_fs_wf|]. split; [exact Hrun|].
  exact (init_cache_dir_keeps_wf ex_self_flat ex_world _ _ ex_fs_wf Hrun).
Defined.

Lemma store_to_cache_keeps_wf_witness :
  fs_wf (w_fs ex_world_built_cache)
  /\ fs_wf (w_fs (snd (_store_to_cache ex_lzma ex_lzma (ex_self_dir ex_plan)
                         ex_digest (mkProducts "build") "top"
                         ex_world_built_cache))).
Proof.
  assert (Hwf : fs_wf (w_fs ex_world_built_cache))
    by (apply fs_wf_b_sound; vm_compute; reflexivity).
  split; [exact Hwf|].
  apply (store_to_cache_keeps_wf ex_lzma ex_lzma (ex_self_dir ex_plan)
           ex_digest (mkProducts "build") "top" ex_world_built_cache
           (fst (_store_to_cache ex_lzma ex_lzma (ex_self_dir ex_plan)
                   ex_digest (mkProducts "build") "top" ex_world_built_cache)));
    [exact Hwf | apply surjective_pairing].
Defined.


Lemma get_cache_dir_with_tree_depth_witness :
  host_attrs (host ex_self_full) !! "tree_depth" = Some (VInt 1)
  /\ _get_cache_dir ex_self_full ex_digest ex_world_rooted =
     (Ok ["work"; ".torii_cache"; "ab"], ex_world_rooted).
Proof.
  split; [by_computation|].
  destruct (get_cache_dir_with_tree_depth ex_self_full ex_digest
              ex_world_rooted 1)
    as (octets & Hrun & -> & _); [by_computation | lia | by_computation..|].
  exact Hrun.
Defined.

Lemma get_cache_dir_same_shard_witness :
  exists p1 p2,
    _get_cache_dir ex_self_full "ab12" ex_world_rooted = (Ok p1, ex_world_rooted)
    /\ _get_cache_dir ex_self_full "abcd" ex_world_rooted = (Ok p2, ex_world_rooted)
    /\ p1 = p2.
Proof.
  destruct (get_cache_dir_same_shard ex_self_full "ab12" "abcd"
              ex_world_rooted 1)
    as (p1 & p2 & H1 & H2 & Hiff);
    [by_computation | lia | by_computation | by_computation | by_computation
    | cbn; lia | cbn; lia |].
  exists p1, p2. split; [exact H1|]. split; [exact H2|].
  apply Hiff. reflexivity.
Defined.


Lemma first_use_creates_tree_witness :
  fs_wf (w_fs ex_world)
  /\ exists self w',
       __init__ ex_host ex_world = (Ok self, ex_world)
       /\ cache_root self ex_world = (Ok ["work"; ".torii_cache"], w')
       /\ size (fs_dirs (w_fs w')) = 259%nat.
Proof.
  split; [exact ex_fs_wf|].
  destruct (first_use_creates_tree ex_host ex_world ex_fs_wf)
    as (self & w' & Hinit & Hroot & Hsize & _);
    [by_computation | by_computation|].
  exists self, w'. split; [exact Hinit|]. split; [exact Hroot|].
  rewrite Hsize. by_computation.
Defined.

Lemma build_skip_cache_executes_witness :
  truthy (default (VBool false)
            (({[ "skip_cache" := VBool true ]} : gmap string PyVal)
               !! "skip_cache")) = true
  /\ _get_from_cache (ex_self_dir ex_plan) ex_digest
       (mkWorld ex_fs_cached [EvElaborate "top" "build"] ["work"]) =
     (Ok (Some ex_entry),
      mkWorld ex_fs_cached [EvElaborate "top" "build"] ["work"])
  /\ fst (build ex_lzma ex_lzma (ex_self_dir ex_plan) tt "top" "build" true
                None false {[ "skip_cache" := VBool true ]} ex_world_cached) =
     Ok ("top", OutProducts (mkProducts "build")).
Proof.
  split; [by_computation|]. split; [by_computation|].
  rewrite (build_skip_cache_executes ex_lzma ex_lzma (ex_self_dir ex_plan) tt
             "top" "build" None false {[ "skip_cache" := VBool true ]}
             ex_world_cached ex_plan ex_fs_cached (Some ex_entry)
             (mkWorld ex_fs_cached [EvElaborate "top" "build"] ["work"])
             (Ok (mkProducts "build"))
             (snd (plan_execute_local ex_plan "build" ex_fs_cached)));
    [reflexivity | by_computation..].
Defined.
